(** * install-from-github: asset selection, extraction and orchestration

    A shallow embedding of [install-from-github.py].  Python strings are
    [string], the JSON catalog is a list of records, the filesystem is a
    finite map from paths to nodes, and the effects of the script (console
    output, filesystem writes, exceptions, [sys.exit]) are threaded through
    a small state-and-exception monad. *)

From Stdlib Require Import String Ascii List Bool Arith Lia DecimalString.
From stdpp Require Import gmap strings list fin_maps.
Import ListNotations.

Local Open Scope string_scope.
Local Open Scope list_scope.

(** ** Python string operations used by the script *)

Module Str.

(** [s.startswith(p)] *)
Fixpoint startswith (p s : string) : bool :=
  match p, s with
  | EmptyString, _ => true
  | String a p', String b s' => Ascii.eqb a b && startswith p' s'
  | String _ _, EmptyString => false
  end.

(** [sub in s] on [str]: exact, character-by-character substring search. *)
Fixpoint contains (sub s : string) : bool :=
  startswith sub s ||
  match s with
  | EmptyString => false
  | String _ s' => contains sub s'
  end.

(** [s.endswith(suffix)] *)
Fixpoint endswith (suffix s : string) : bool :=
  String.eqb suffix s ||
  match s with
  | EmptyString => false
  | String _ s' => endswith suffix s'
  end.

(** [s.split(sep)] for a one-character separator: every occurrence splits,
    and the result always has at least one field. *)
Fixpoint split (sep : ascii) (s : string) : list string :=
  match s with
  | EmptyString => [EmptyString]
  | String c s' =>
      if Ascii.eqb c sep then EmptyString :: split sep s'
      else match split sep s' with
           | [] => [String c EmptyString]
           | w :: ws => String c w :: ws
           end
  end.

(** [s.split(sep, 1)[0]]: the text before the first separator. *)
Fixpoint before_first (sep : ascii) (s : string) : string :=
  match s with
  | EmptyString => EmptyString
  | String c s' =>
      if Ascii.eqb c sep then EmptyString else String c (before_first sep s')
  end.

(** Whitespace removed by [str.strip()].  A [string] holds the code points
    of a Python [str], each below 256; among those the blanks are the ASCII
    ones, U+0085 and U+00A0. *)
Definition is_space (c : ascii) : bool :=
  match c with
  | "009" | "010" | "011" | "012" | "013"
  | "028" | "029" | "030" | "031" | " "
  | "133" | "160" => true
  | _ => false
  end%char.

Fixpoint lstrip (s : string) : string :=
  match s with
  | EmptyString => EmptyString
  | String c s' => if is_space c then lstrip s' else s
  end.

Fixpoint rstrip (s : string) : string :=
  match s with
  | EmptyString => EmptyString
  | String c s' =>
      match rstrip s' with
      | EmptyString => if is_space c then EmptyString else String c EmptyString
      | r => String c r
      end
  end.

(** [s.strip()] *)
Definition strip (s : string) : string := rstrip (lstrip s).

(** [s.replace(a, b)] for one-character [a] and [b]. *)
Fixpoint replace (a b : ascii) (s : string) : string :=
  match s with
  | EmptyString => EmptyString
  | String c s' => String (if Ascii.eqb c a then b else c) (replace a b s')
  end.

(** Truthiness of a [str]: only the empty string is falsy. *)
Definition truthy (s : string) : bool :=
  match s with EmptyString => false | String _ _ => true end.

(** A text that a write and a read in text mode hand back as it is,
    whatever the encoding of the locale: ASCII characters only, and no
    carriage return (a read would turn it into a line feed). *)
Fixpoint text_mode_safe (s : string) : bool :=
  match s with
  | EmptyString => true
  | String c s' =>
      Nat.ltb (nat_of_ascii c) 128 && negb (Ascii.eqb c "013") && text_mode_safe s'
  end.

End Str.

(** ** The asset selector (the loop of [download_and_extract_archive]) *)

Module Selector.

(** One element of the ["assets"] array of the release document.  A field is
    [None] when the JSON object has no such key; the script reads both with
    [asset.get(key, "")]. *)
Record Asset := mkAsset {
  name : option string;
  browser_download_url : option string
}.

(** [d.get(key, dflt)] on an optional field. *)
Definition get (field : Asset -> option string) (asset : Asset) (dflt : string) : string :=
  match field asset with
  | Some v => v
  | None => dflt
  end.

Definition ACCEPT_FILTER : string := "64".
Definition IGNORE_FILTER_PACKAGE : string := "arm|ppc".
Definition IGNORE_FILTER_ARCHIVE : string :=
  "mac|macos|darwin|apple|win|bsd|arm|aarch|ppc|i686|sha256|deb$|rpm$|apk$|sig$|proxy-linux".

(** [ACCEPT in asset_name and not any(ignored in asset_name for ignored in rejects)] *)
Definition qualifies (accept : string) (rejects : list string) (asset_name : string) : bool :=
  Str.contains accept asset_name &&
  negb (existsb (fun ignored => Str.contains ignored asset_name) rejects).

(** What one qualifying candidate does to [download_url]: the three-way
    [if]/[elif]/[elif]; when no branch fires the variable keeps its value. *)
Definition prefer (prefer_musl appimage : bool) (asset_name asset_url : string)
    (download_url : option string) : option string :=
  if prefer_musl && Str.contains "musl" asset_name then Some asset_url
  else if appimage && Str.contains "AppImage" asset_name then Some asset_url
  else if negb prefer_musl && negb appimage then Some asset_url
  else download_url.

(** The [for asset in assets] loop with the accept substring and the reject
    list as parameters.  [download_url] is [None] for Python's [None].  The
    [break] is the last statement of the outer [if], so the scan ends at the
    first qualifying asset whichever branch of [prefer] was taken. *)
Fixpoint scan (accept : string) (rejects : list string) (prefer_musl appimage : bool)
    (assets : list Asset) (download_url : option string) : option string :=
  match assets with
  | [] => download_url
  | asset :: rest =>
      let asset_name := get name asset "" in
      let asset_url := get browser_download_url asset "" in
      if qualifies accept rejects asset_name
      then prefer prefer_musl appimage asset_name asset_url download_url
      else scan accept rejects prefer_musl appimage rest download_url
  end.

(** The same loop, remembering the asset whose URL was assigned. *)
Fixpoint select (accept : string) (rejects : list string) (prefer_musl appimage : bool)
    (assets : list Asset) : option Asset :=
  match assets with
  | [] => None
  | asset :: rest =>
      let asset_name := get name asset "" in
      if qualifies accept rejects asset_name
      then (if prefer_musl && Str.contains "musl" asset_name then Some asset
            else if appimage && Str.contains "AppImage" asset_name then Some asset
            else if negb prefer_musl && negb appimage then Some asset
            else None)
      else select accept rejects prefer_musl appimage rest
  end.

(** The loop as the script runs it: the module constants, [download_url = None]. *)
Definition default_rejects : list string := Str.split "|" IGNORE_FILTER_ARCHIVE.

Definition download_url_of (prefer_musl appimage : bool) (assets : list Asset) : option string :=
  scan ACCEPT_FILTER default_rejects prefer_musl appimage assets None.

Definition select_default (prefer_musl appimage : bool) (assets : list Asset) : option Asset :=
  select ACCEPT_FILTER default_rejects prefer_musl appimage assets.

(** [if download_url:] is false for [None] and for the empty string. *)
Definition url_truthy (download_url : option string) : bool :=
  match download_url with
  | Some u => Str.truthy u
  | None => false
  end.

Definition asset (n u : string) : Asset := mkAsset (Some n) (Some u).

End Selector.

(** ** Paths and the filesystem *)

Module Os.

(** Split at the last occurrence of [c]: the text before it and after it. *)
Fixpoint rsplit (c : ascii) (s : string) : option (string * string) :=
  match s with
  | EmptyString => None
  | String a s' =>
      match rsplit c s' with
      | Some (l, r) => Some (String a l, r)
      | None => if Ascii.eqb a c then Some (EmptyString, s') else None
      end
  end.

(** [os.path.basename(p)]: what follows the last slash. *)
Definition basename (p : string) : string :=
  match rsplit "/" p with
  | Some (_, r) => r
  | None => p
  end.

(** [os.path.join(a, b)] for two components. *)
Definition join (a b : string) : string :=
  if Str.startswith "/" b then b
  else if negb (Str.truthy a) || Str.endswith "/" a then a +:+ b
  else a +:+ "/" +:+ b.

Fixpoint all_dots (s : string) : bool :=
  match s with
  | EmptyString => true
  | String c s' => Ascii.eqb c "." && all_dots s'
  end.

(** [os.path.splitext(p)]: the extension starts at the last dot of the last
    component, unless only dots precede it there. *)
Definition splitext (p : string) : string * string :=
  let '(head, base) :=
    match rsplit "/" p with
    | Some (l, r) => (l +:+ "/", r)
    | None => (EmptyString, p)
    end in
  match rsplit "." base with
  | Some (stem, e) =>
      if all_dots stem then (p, EmptyString)
      else (head +:+ stem, "." +:+ e)
  | None => (p, EmptyString)
  end.

(** [os.path.dirname(p)]: what precedes the last slash, without the
    slashes it ends in unless it is made of slashes only. *)
Fixpoint all_slashes (s : string) : bool :=
  match s with
  | EmptyString => true
  | String c s' => Ascii.eqb c "/" && all_slashes s'
  end.

Fixpoint rstrip_slashes (s : string) : string :=
  match s with
  | EmptyString => EmptyString
  | String c s' =>
      match rstrip_slashes s' with
      | EmptyString => if Ascii.eqb c "/" then EmptyString else String c EmptyString
      | r => String c r
      end
  end.

Definition dirname (p : string) : string :=
  match rsplit "/" p with
  | Some (l, _) =>
      let head := l +:+ "/" in
      if all_slashes head then head else rstrip_slashes head
  | None => EmptyString
  end.

(** A last component that names a file: not empty, not [.] and not [..]. *)
Definition proper_name (b : string) : bool :=
  negb (String.eqb b "") && negb (String.eqb b ".") && negb (String.eqb b "..").

(** The permissions of an entry as they hold for the user who runs the
    script (not the superuser): execute, as [os.access(path, os.X_OK)]
    answers for a file and as search permission for a directory; write;
    read.  A bare boolean stands for an entry the user may read and write,
    with that execute bit. *)
Record mode := mkMode { x_ok : bool; w_ok : bool; r_ok : bool }.

Definition mode_of_bool (x : bool) : mode := mkMode x true true.
Coercion mode_of_bool : bool >-> mode.

Global Instance mode_eq_dec : EqDecision mode.
Proof. solve_decision. Defined.

(** A filesystem entry: a directory with its mode, or a regular file with
    its bytes and its mode.  [Dir] is a directory the user may list, search
    and change. *)
Inductive node :=
  | Directory (m : mode)
  | File (content : string) (m : mode).

Abbreviation Dir := (Directory (mkMode true true true)).

Global Instance node_eq_dec : EqDecision node.
Proof. solve_decision. Defined.

Definition is_directory (n : node) : bool :=
  match n with
  | Directory _ => true
  | File _ _ => false
  end.

(** The user's permissions on the entry are whole: a directory may be
    listed, searched and changed, a file may be overwritten. *)
Definition unrestricted (n : node) : bool :=
  match n with
  | Directory m => r_ok m && w_ok m && x_ok m
  | File _ m => w_ok m
  end.

(** A directory that cannot be listed or cannot be searched. *)
Definition shut (n : node) : bool :=
  match n with
  | Directory m => negb (r_ok m && x_ok m)
  | File _ _ => false
  end.

(** The filesystem as a finite map from normalised absolute paths to nodes.
    Paths are compared as strings (no empty, [.] or [..] components, no
    links); an entry lies below a directory when its path extends the
    directory's path by a slash and more. *)
Definition below (d p : string) : bool := Str.startswith (d +:+ "/") p.

Definition within (d p : string) : bool := String.eqb d p || below d p.

Definition is_dir (fs : gmap string node) (p : string) : bool :=
  match fs !! p with
  | Some (Directory _) => true
  | _ => false
  end.

(** [os.path.exists(p)] *)
Definition path_exists (fs : gmap string node) (p : string) : bool :=
  match fs !! p with
  | Some _ => true
  | None => false
  end.

(** The filesystem after [open(p, 'w')] and a write of [text]: a new file
    is not executable, an existing one keeps its mode. *)
Definition written (p text : string) (fs : gmap string node) : gmap string node :=
  <[p := File text match fs !! p with Some (File _ m) => m | _ => mode_of_bool false end]> fs.

(** What [shutil.rmtree(d)] leaves: everything that is neither [d] nor below it. *)
Definition remove_tree (d : string) (fs : gmap string node) : gmap string node :=
  filter (fun kv => within d kv.1 = false) fs.

(** [shutil.rmtree(d)] cannot finish when a directory of the tree cannot
    be listed, or holds entries and cannot be changed or searched: its
    entries cannot be removed. *)
Definition occupied (d : string) (fs : gmap string node) : bool :=
  negb (bool_decide (filter (fun kv => below d kv.1 = true) fs = ∅)).

Definition blocks_removal (fs : gmap string node) (kv : string * node) : bool :=
  match kv.2 with
  | Directory m => negb (r_ok m) || (occupied kv.1 fs && negb (w_ok m && x_ok m))
  | File _ _ => false
  end.

Definition locked_tree (d : string) (fs : gmap string node) : bool :=
  negb (bool_decide
          (filter (fun kv => within d kv.1 = true /\ blocks_removal fs kv = true) fs = ∅)).

(** No directory above [p] is shut: the path can be looked up. *)
Definition approachable (fs : gmap string node) (p : string) : bool :=
  bool_decide (filter (fun kv => below kv.1 p = true /\ shut kv.2 = true) fs = ∅).

(** The directory of [p] is there and the user may make entries in it. *)
Definition parent_writable (fs : gmap string node) (p : string) : bool :=
  match fs !! dirname p with
  | Some (Directory m) => w_ok m
  | _ => false
  end.

(** A file can be written at [p] and read again: [p] can be looked up and
    is a file the user may read and write, or is free in a directory where
    the user may make entries. *)
Definition can_rewrite (fs : gmap string node) (p : string) : bool :=
  approachable fs p &&
  match fs !! p with
  | Some (Directory _) => false
  | Some (File _ m) => r_ok m && w_ok m
  | None => parent_writable fs p
  end.

(** [os.makedirs(d, exist_ok=True)] has no parent to make: [d] is a
    directory already, or is free in a directory where the user may make
    entries. *)
Definition can_make_dir (fs : gmap string node) (d : string) : bool :=
  approachable fs d &&
  match fs !! d with
  | Some (Directory _) => true
  | Some (File _ _) => false
  | None => parent_writable fs d
  end.

(** [d] can be removed with what is below it and made anew in its
    directory: it is no regular file, its tree can be removed, and the user
    may change the directory it lies in. *)
Definition can_remake (fs : gmap string node) (d : string) : bool :=
  approachable fs d && parent_writable fs d &&
  match fs !! d with
  | Some (File _ _) => false
  | _ => true
  end &&
  negb (locked_tree d fs).

(** In a filesystem every entry lies in a directory that exists: nothing is
    below a path that is absent. *)
Definition no_orphans (d : string) (fs : gmap string node) : bool :=
  path_exists fs d ||
  bool_decide (filter (fun kv => below d kv.1 = true) fs = ∅).

(** Writing entries one after the other (a later entry of the same path
    replaces an earlier one). *)
Fixpoint write_all (entries : list (string * node)) (fs : gmap string node)
    : gmap string node :=
  match entries with
  | [] => fs
  | (p, n) :: rest => write_all rest (<[p := n]> fs)
  end.

(** Writing archive members below a directory, in archive order. *)
Definition write_members (d : string) (members : list (string * node))
    (fs : gmap string node) : gmap string node :=
  write_all (map (fun m => (d +:+ "/" +:+ m.1, m.2)) members) fs.

(** No directory from [d] down to [p] is shut. *)
Definition reachable (d : string) (fs : gmap string node) (p : string) : bool :=
  bool_decide
    (filter (fun kv => within d kv.1 = true /\ below kv.1 p = true /\ shut kv.2 = true) fs = ∅).

(** The regular files that [os.walk(d)] reports and that [os.access] can
    look up, as full paths, in the order of the map's enumeration; the tree
    is listed as it is when the walk starts.  The walk passes over a
    directory it cannot list, and [os.access] answers [False] for a file in
    a directory that cannot be searched: neither is copied. *)
Definition walk_files (d : string) (fs : gmap string node) : list (string * node) :=
  map_to_list
    (filter (fun kv => below d kv.1 = true /\ is_directory kv.2 = false /\
                       reachable d fs kv.1 = true) fs).

End Os.

(** ** Effects: console, filesystem, exceptions *)

Module Eff.

Import Os.

(** The exceptions the script can meet. [SystemExit] is what [sys.exit]
    raises; it is not an [Exception], so [except Exception] lets it pass. *)
Inductive exn :=
  | SystemExit (code : nat)
  | CalledProcessError
  | RequestException (msg : string)
  | JSONDecodeError
  | FileNotFoundError
  | FileExistsError
  | NotADirectoryError
  | IsADirectoryError
  | SameFileError
  | PermissionError.

Definition is_Exception (e : exn) : bool :=
  match e with
  | SystemExit _ => false
  | _ => true
  end.

(** [str(e)] as it shows in a message: the text of an exception of
    [requests], the name of the class for the others (the wording Python
    gives an [OSError] is not reproduced). *)
Definition exn_str (e : exn) : string :=
  match e with
  | SystemExit _ => "SystemExit"
  | CalledProcessError => "CalledProcessError"
  | RequestException msg => msg
  | JSONDecodeError => "JSONDecodeError"
  | FileNotFoundError => "FileNotFoundError"
  | FileExistsError => "FileExistsError"
  | NotADirectoryError => "NotADirectoryError"
  | IsADirectoryError => "IsADirectoryError"
  | SameFileError => "SameFileError"
  | PermissionError => "PermissionError"
  end.

(** Console lines by the helper that printed them ([error] goes to stderr,
    [Plain] is a bare [print]). *)
Inductive level := Header | Warn | Info | Note | Error | Plain.

Global Instance level_eq_dec : EqDecision level.
Proof. solve_decision. Defined.

Record world := mkWorld {
  files : gmap string node;
  console : list (level * string)
}.

Inductive result (A : Type) :=
  | Ok (a : A)
  | Raise (e : exn).
Arguments Ok {A} a.
Arguments Raise {A} e.

(** A computation reads and writes the world and either returns or raises;
    the world changes made before a raise stay. *)
Definition M (A : Type) : Type := world -> result A * world.

Definition ret {A} (a : A) : M A := fun w => (Ok a, w).

Definition bind {A B} (m : M A) (k : A -> M B) : M B :=
  fun w =>
    match m w with
    | (Ok a, w') => k a w'
    | (Raise e, w') => (Raise e, w')
    end.

Definition raise {A} (e : exn) : M A := fun w => (Raise e, w).

(** [try: m  except Exception as e: handler(e)] *)
Definition try_except {A} (m : M A) (handler : exn -> M A) : M A :=
  fun w =>
    match m w with
    | (Raise e, w') => if is_Exception e then handler e w' else (Raise e, w')
    | r => r
    end.

Notation "x <- m ;; k" := (bind m (fun x => k))
  (at level 100, m at next level, right associativity).
Notation "m ;; k" := (bind m (fun _ => k))
  (at level 100, right associativity).

Definition emit (l : level) (message : string) : M unit :=
  fun w => (Ok tt, mkWorld (files w) (console w ++ [(l, message)])).

(** The world after more console lines. *)
Definition say (w : world) (out : list (level * string)) : world :=
  mkWorld (files w) (console w ++ out).

Definition header := emit Header.
Definition warn := emit Warn.
Definition info := emit Info.
Definition note := emit Note.
Definition error := emit Error.

(** [die] is defined by the script but [main] spells it out. *)
Definition sys_exit {A} (code : nat) : M A := raise (SystemExit code).

Definition die {A} (message : string) : M A := error message ;; sys_exit 1.

Definition get_files : M (gmap string node) := fun w => (Ok (files w), w).

Definition put_files (fs : gmap string node) : M unit :=
  fun w => (Ok tt, mkWorld fs (console w)).

(** [for x in xs: body(x)] *)
Fixpoint for_each {A} (xs : list A) (body : A -> M unit) : M unit :=
  match xs with
  | [] => ret tt
  | x :: rest => body x ;; for_each rest body
  end.

(** [shutil.rmtree(d)].  When it raises [PermissionError] the entries it
    had removed by then are not recorded: the tree is left as it was (the
    exception ends the script). *)
Definition rmtree (d : string) : M unit :=
  fs <- get_files ;;
  match fs !! d with
  | Some (Directory _) =>
      if locked_tree d fs then raise PermissionError
      else put_files (remove_tree d fs)
  | Some (File _ _) => raise NotADirectoryError
  | None => raise FileNotFoundError
  end.

(** [os.mkdir(d)] *)
Definition mkdir (d : string) : M unit :=
  fs <- get_files ;;
  if path_exists fs d then raise FileExistsError
  else put_files (<[d := Dir]> fs).

(** [os.makedirs(d, exist_ok=True)], for a path whose parent exists: the
    directories above [d] are not entries the script looks at again. *)
Definition makedirs (d : string) : M unit :=
  fs <- get_files ;;
  match fs !! d with
  | Some (Directory _) => ret tt
  | Some (File _ _) => raise FileExistsError
  | None => put_files (<[d := Dir]> fs)
  end.

(** [with open(p) as f: f.read()].  The entry holds the text as a read in
    text mode presents it; the line ends of the project list are dealt with
    by [lines]. *)
Definition read_text (p : string) : M string :=
  fs <- get_files ;;
  match fs !! p with
  | Some (File text _) => ret text
  | Some (Directory _) => raise IsADirectoryError
  | None => raise FileNotFoundError
  end.

(** [with open(p, 'w') as f: f.write(text)].  The path is the cache file
    of the script: that its directory exists and that the user may write
    there is taken for granted, only a directory in its place is an error. *)
Definition write_text (p text : string) : M unit :=
  fs <- get_files ;;
  if is_dir fs p then raise IsADirectoryError
  else put_files (written p text fs).

(** [shutil.copy(src, dst)]: into [dst] when it is a directory, onto it
    otherwise; contents and permission bits are copied.  The source is
    opened for reading, then the target for writing: a file there must be
    writable, and a free path must lie in a directory that exists and where
    the user may make entries. *)
Definition copy (src dst : string) : M unit :=
  fs <- get_files ;;
  let target := if is_dir fs dst then join dst (basename src) else dst in
  match fs !! src with
  | Some (File text m) =>
      if String.eqb src target then raise SameFileError
      else if negb (r_ok m) then raise PermissionError
      else
        match fs !! target with
        | Some (Directory _) => raise IsADirectoryError
        | Some (File _ tm) =>
            if w_ok tm then put_files (<[target := File text m]> fs)
            else raise PermissionError
        | None =>
            match fs !! dirname target with
            | Some (Directory dm) =>
                if w_ok dm && x_ok dm then put_files (<[target := File text m]> fs)
                else raise PermissionError
            | Some (File _ _) => raise NotADirectoryError
            | None => raise FileNotFoundError
            end
        end
  | Some (Directory _) => raise IsADirectoryError
  | None => raise FileNotFoundError
  end.

End Eff.

(** ** The script *)

Module Script.

Import Os Eff Selector.

(** [sep.join(xs)] *)
Fixpoint join_with (sep : string) (xs : list string) : string :=
  match xs with
  | [] => EmptyString
  | [x] => x
  | x :: rest => x +:+ sep +:+ join_with sep rest
  end.

(** The lines a text file yields when iterated, each with its newline.
    The file is open in text mode: a line ends at a line feed, at a carriage
    return, or at the two in a row, and its end is handed over as one line
    feed. *)
Fixpoint lines (s : string) : list string :=
  match s with
  | EmptyString => []
  | String c s' =>
      if Ascii.eqb c "010" then String c EmptyString :: lines s'
      else if Ascii.eqb c "013" then
        match s' with
        | String "010" _ => lines s'
        | _ => String "010" EmptyString :: lines s'
        end
      else match lines s' with
           | [] => [String c EmptyString]
           | l :: ls => String c l :: ls
           end
  end.

(** The project list comprehension of [main]:
    [[line.strip().split('#', 1)[0] for line in f if line.strip()]] *)
Definition read_projects (text : string) : list string :=
  map (fun line => Str.before_first "#" (Str.strip line))
      (List.filter (fun line => Str.truthy (Str.strip line)) (lines text)).

(** The release document after [json.load]: a JSON object whose ["assets"]
    key, when present, holds the array of assets. *)
Record release := mkRelease { assets : option (list Asset) }.

Record response := mkResponse { status_code : nat; text : string }.

Inductive archive_format := TarGz | TarXz | Zip.

(** [argparse]'s namespace. *)
Record args := mkArgs {
  verbose : bool;
  dev : bool;
  prefer_musl : bool;
  appimage : bool;
  force : bool;
  projects : list string
}.

(** What a function of the script hands back: [None], [True] or [False]. *)
Definition truthy (r : option bool) : bool :=
  match r with
  | Some b => b
  | None => false
  end.

Section Run.

(** The user's home directory, as [os.path.expanduser] substitutes it. *)
Variable home : string.

(** [requests.get(url)]: a response, or the exception it raised. *)
Variable requests_get : string -> result response.

(** [json.load]: the parsed document, or [None] when it raises. *)
Variable json_load : string -> option release.

(** The transfer tool run on a URL: the filesystem it leaves, or [None]
    when it exits with a non-zero status. *)
Variable wget : string -> gmap string node -> option (gmap string node).

(** The decoder ([tar], [unzip]) run on the bytes of an archive: the
    members it unpacks, as relative paths, and whether it exits with status
    zero (a decoder that fails leaves what it had unpacked by then). *)
Variable decode : archive_format -> string -> list (string * node) * bool.

Definition CACHE_DIR : string := home +:+ "/.cache/install-from-github".
Definition DOWNLOAD_DIR : string := home +:+ "/Downloads/install-from-github".
Definition BINARY_DIR : string := home +:+ "/.local/bin".
Definition CONFIG_DIR : string := home +:+ "/.config/install-from-github".
Definition USER_PROJECTS : string := join CONFIG_DIR "projects.txt".

(** The URL of the latest-release document of a project. *)
Definition api_url (project : string) : string :=
  "https://api.github.com/repos/" +:+ project +:+ "/releases/latest".

(** The cache file of a project, as [main] names it. *)
Definition cache_file (project : string) : string :=
  join CACHE_DIR (Str.replace "/" "_" project +:+ "_assets.json").

Definition download_asset_list (project filename : string) (verbose dev_mode : bool)
    : M (option bool) :=
  fs <- get_files ;;
  if dev_mode && path_exists fs filename then ret None
  else
    info ("Downloading asset list for " +:+ project +:+ "...") ;;
    try_except
      (let url := api_url project in
       match requests_get url with
       | Raise e => raise e
       | Ok response =>
           if Nat.eqb (status_code response) 200 then
             write_text filename (text response) ;;
             (if verbose then emit Plain (text response) else ret tt) ;;
             ret (Some true)
           else
             error ("Failed to download " +:+ project +:+ ": " +:+
                    NilZero.string_of_uint (Nat.to_uint (status_code response))) ;;
             ret (Some false)
       end)
      (fun e => error ("Download failed: " +:+ exn_str e) ;; ret (Some false)).

(** [subprocess.run(cmd, check=True)] for the decoders: the archive is read
    and its members are written below [folder]; a non-zero exit status
    raises once the decoder has stopped. *)
Definition run_decoder (fmt : archive_format) (filename folder : string) : M unit :=
  fs <- get_files ;;
  match fs !! filename with
  | Some (File bytes _) =>
      put_files (write_members folder (decode fmt bytes).1 fs) ;;
      if (decode fmt bytes).2 then ret tt else raise CalledProcessError
  | _ => raise CalledProcessError
  end.

(** The walk of [extract_archive]: every file of the tree that passes
    [os.access(_, os.X_OK)] is copied; the paths are collected. *)
Fixpoint copy_executables (found : list (string * node)) (executables : list string)
    : M (list string) :=
  match found with
  | [] => ret executables
  | (full_path, n) :: rest =>
      match n with
      | File _ m =>
          if x_ok m then
            copy full_path BINARY_DIR ;;
            copy_executables rest (executables ++ [full_path])
          else copy_executables rest executables
      | Directory _ => copy_executables rest executables
      end
  end.

(** The paths the walk collects, and the writes its copies make when the
    binary directory is a directory ([bdir]) or is not. *)
Definition executable (n : node) : bool :=
  match n with
  | File _ m => x_ok m
  | Directory _ => false
  end.

Definition executables_of (found : list (string * node)) : list string :=
  omap (fun f => if executable f.2 then Some f.1 else None) found.

Definition copy_target (bdir : bool) (src : string) : string :=
  if bdir then join BINARY_DIR (basename src) else BINARY_DIR.

Definition copy_writes (bdir : bool) (found : list (string * node))
    : list (string * node) :=
  omap (fun f => if executable f.2 then Some (copy_target bdir f.1, f.2) else None)
       found.

Definition archive_format_of (filename : string) : option archive_format :=
  if Str.endswith ".tar.gz" filename then Some TarGz
  else if Str.endswith ".tar.xz" filename then Some TarXz
  else if Str.endswith ".zip" filename then Some Zip
  else None.

(** The first statements of [extract_archive]: whatever is at [folder] is
    removed and the directory is made anew. *)
Definition fresh_folder (folder : string) : M unit :=
  fs <- get_files ;;
  (if path_exists fs folder then rmtree folder else ret tt) ;;
  mkdir folder.

Definition extract_archive (filename : string) : M unit :=
  let '(folder, ext) := splitext filename in
  fresh_folder folder ;;
  info ("Extracting " +:+ filename +:+ " into " +:+ folder +:+ "...") ;;
  match archive_format_of filename with
  | None => warn ("Unknown archive file type for " +:+ filename)
  | Some fmt =>
      run_decoder fmt filename folder ;;
      fs' <- get_files ;;
      executables <- copy_executables (walk_files folder fs') [] ;;
      match executables with
      | [] => ret tt
      | _ =>
          info ("Copied executables to " +:+ BINARY_DIR +:+ ": " +:+
                join_with ", " (map basename executables))
      end
  end.

(** [asset_data.get("assets", [])] *)
Definition assets_of (asset_data : release) : list Asset :=
  match assets asset_data with
  | Some l => l
  | None => []
  end.

(** The console lines of [extract_archive]. *)
Definition extracting (filename folder : string) : level * string :=
  (Info, "Extracting " +:+ filename +:+ " into " +:+ folder +:+ "...").

Definition copied (executables : list string) : list (level * string) :=
  match executables with
  | [] => []
  | _ => [(Info, "Copied executables to " +:+ BINARY_DIR +:+ ": " +:+
                 join_with ", " (map basename executables))]
  end.

Definition run_wget (download_url : string) : M unit :=
  fs <- get_files ;;
  match wget download_url fs with
  | Some fs' => put_files fs'
  | None => raise CalledProcessError
  end.

Definition download_and_extract_archive (project filename : string)
    (prefer_musl appimage dev_mode : bool) : M unit :=
  info ("Filtering archives for " +:+ project) ;;
  document <- read_text filename ;;
  match json_load document with
  | None => raise JSONDecodeError
  | Some asset_data =>
      let assets := assets_of asset_data in
      let download_url := download_url_of prefer_musl appimage assets in
      match download_url with
      | Some url =>
          if Str.truthy url then
            info ("Downloading archive: " +:+ url) ;;
            let filename := join DOWNLOAD_DIR (basename url) in
            if negb dev_mode then
              run_wget url ;;
              extract_archive filename
            else ret tt
          else warn ("No matching archives found for " +:+ project)
      | None => warn ("No matching archives found for " +:+ project)
      end
  end.

(** The body of the [for project in projects] loop of [main]. *)
Definition process_project (a : args) (project : string) : M unit :=
  header ("Processing " +:+ project) ;;
  let asset_file := cache_file project in
  r <- download_asset_list project asset_file (verbose a) (dev a) ;;
  if truthy r
  then download_and_extract_archive project asset_file (prefer_musl a) (appimage a) (dev a)
  else ret tt.

(** The project list after the [if not projects:] block that reads the file. *)
Definition resolve_projects (a : args) : M (list string) :=
  match projects a with
  | [] =>
      fs <- get_files ;;
      if path_exists fs USER_PROJECTS
      then (text <- read_text USER_PROJECTS ;; ret (read_projects text))
      else ret []
  | ps => ret ps
  end.

Definition main (a : args) : M unit :=
  makedirs DOWNLOAD_DIR ;;
  makedirs CACHE_DIR ;;
  makedirs CONFIG_DIR ;;
  projects <- resolve_projects a ;;
  match projects with
  | [] => error "No projects to install." ;; sys_exit 1
  | _ => for_each projects (process_project a)
  end.

(** The members the decoder unpacks from the archive at [filename], none
    when the suffix is not recognised. *)
Definition archive_members (filename : string) (fs : gmap string node)
    : list (string * node) :=
  match archive_format_of filename, fs !! filename with
  | Some fmt, Some (File bytes _) => (decode fmt bytes).1
  | _, _ => []
  end.

(** The catalog fetch of a project does not succeed: a status other than
    200, or an exception that [except Exception] catches. *)
Definition fetch_fails (project : string) : bool :=
  match requests_get (api_url project) with
  | Ok resp => negb (Nat.eqb (status_code resp) 200)
  | Raise e => is_Exception e
  end.

(** [download_asset_list] hands back a falsy value for the project: dev
    mode with the cache file present, or a fetch that does not succeed. *)
Definition catalog_step_falsy (a : args) (fs : gmap string node) (project : string) : bool :=
  (dev a && path_exists fs (cache_file project)) || fetch_fails project.

End Run.

(** The status the interpreter exits with: 0 when [main] returns, the code
    of [sys.exit], and 1 for any other exception that reaches the top. *)
Definition exit_status (r : result unit) : nat :=
  match r with
  | Ok _ => 0
  | Raise (SystemExit code) => code
  | Raise _ => 1
  end.

End Script.

(** ** Helpers the script defines beside [main] *)

Module Helpers.

(** [is_in_path(directory)]: [directory in os.environ['PATH']], a substring
    test on the whole variable; [None] stands for the [KeyError] raised
    when the variable is not set. *)
Definition is_in_path (environ : gmap string string) (directory : string) : option bool :=
  match environ !! "PATH" with
  | Some path => Some (Str.contains directory path)
  | None => None
  end.

End Helpers.

(** ** Well-formed project list files *)

Module ProjectList.

Definition nl : string := String "010" EmptyString.

Fixpoint all_chars (P : ascii -> bool) (s : string) : bool :=
  match s with
  | EmptyString => true
  | String c s' => P c && all_chars P s'
  end.

Fixpoint last_char (s : string) : option ascii :=
  match s with
  | EmptyString => None
  | String c s' =>
      match last_char s' with
      | Some d => Some d
      | None => Some c
      end
  end.

(** An ASCII character that is neither [#] nor the end of a line. *)
Definition plain_char (a : ascii) : bool :=
  Nat.ltb (nat_of_ascii a) 128 &&
  negb (Ascii.eqb a "#") && negb (Ascii.eqb a "010") && negb (Ascii.eqb a "013").

(** An identifier as one writes it on a line of its own: ASCII, not
    empty, no blank at either end, no [#], no line feed and no carriage
    return in it. *)
Definition plain_id (s : string) : bool :=
  match s, last_char s with
  | String c _, Some d =>
      negb (Str.is_space c) && negb (Str.is_space d) && all_chars plain_char s
  | _, _ => false
  end.

(** A project list file with one identifier per line. *)
Fixpoint unlines (ids : list string) : string :=
  match ids with
  | [] => EmptyString
  | id :: rest => id +:+ nl +:+ unlines rest
  end.

End ProjectList.

(** ** Sample runs *)

Module Sample.

Import Os Eff Selector Script.

Definition home : string := "/home/u".

Definition document : string :=
  "{assets: [{name: tool-linux-amd64.tar.gz, browser_download_url: https://host/tool-linux-amd64.tar.gz}]}".

Definition catalog : list Asset :=
  [asset "tool-linux-amd64.tar.gz" "https://host/tool-linux-amd64.tar.gz"].

Definition archive : string := "/home/u/Downloads/install-from-github/tool-linux-amd64.tar.gz".

Definition requests_200 (url : string) : result response :=
  Ok (mkResponse 200 document).

Definition requests_404 (url : string) : result response :=
  Ok (mkResponse 404 "Not Found").

(** The catalog of [a/b] is not found, every other one is served. *)
Definition requests_mixed (url : string) : result response :=
  if String.eqb url (api_url "a/b") then Ok (mkResponse 404 "Not Found")
  else Ok (mkResponse 200 document).

Definition json_load (doc : string) : option release :=
  if String.eqb doc document then Some (mkRelease (Some catalog)) else None.

Definition wget_fails (url : string) (fs : gmap string node) : option (gmap string node) :=
  None.

(** The transfer leaves the archive in the download directory. *)
Definition wget_ok (url : string) (fs : gmap string node) : option (gmap string node) :=
  Some (written (join (DOWNLOAD_DIR home) (basename url)) "archive bytes" fs).

Definition decode_fails (fmt : archive_format) (bytes : string)
    : list (string * node) * bool := ([], false).

Definition decode_ok (fmt : archive_format) (bytes : string)
    : list (string * node) * bool :=
  ([("bin", Dir); ("bin/tool", File "ELF" true); ("README.md", File "text" false)], true).

(** An archive whose executable is read-only (mode 0555). *)
Definition decode_read_only (fmt : archive_format) (bytes : string)
    : list (string * node) * bool :=
  ([("bin", Dir); ("bin/tool", File "ELF" (mkMode true false true))], true).

(** A truncated archive: one member is unpacked before the decoder fails. *)
Definition decode_truncated (fmt : archive_format) (bytes : string)
    : list (string * node) * bool :=
  ([("first", File "1" false)], false).

Definition flags (dev_mode : bool) (ps : list string) : args :=
  mkArgs false dev_mode false false false ps.

Definition empty : world := mkWorld ∅ [].

(** A home directory that already has the binary directory. *)
Definition installed : world :=
  mkWorld (<[BINARY_DIR home := Dir]> ∅) [].

(** A world where the catalog of [owner/tool] is already cached. *)
Definition cached : world :=
  mkWorld (<[cache_file home "owner/tool" := File document false]> ∅) [].

(** A world whose project list holds a comment line and blank lines only. *)
Definition nl : string := String "010" EmptyString.

Definition comment_only : string := "# tools" +:+ nl +:+ nl +:+ "   " +:+ nl.

Definition commented : world :=
  mkWorld (<[USER_PROJECTS home := File comment_only false]> ∅) [].

(** The world [main] reaches from [empty] once its directories are made. *)
Definition prepared : world :=
  mkWorld (<[CONFIG_DIR home := Dir]> (<[CACHE_DIR home := Dir]>
            (<[DOWNLOAD_DIR home := Dir]> ∅))) [].

(** A home directory as a login finds it, with the binary directory. *)
Definition fresh_home : world :=
  mkWorld
    (<["/home/u/.local/bin" := Dir]> (<["/home/u/.local" := Dir]>
      (<["/home/u/Downloads" := Dir]> (<["/home/u/.config" := Dir]>
        (<["/home/u/.cache" := Dir]> (<["/home/u" := Dir]> ∅)))))) [].

(** The archive is in the download directory, next to what an earlier
    extraction left; the binary directory exists. *)
Definition staged : world :=
  mkWorld
    (<[archive := File "archive bytes" false]>
     (<["/home/u/Downloads/install-from-github/tool-linux-amd64.tar/old" := File "stale" true]>
      (<["/home/u/Downloads/install-from-github/tool-linux-amd64.tar" := Dir]>
       (<[DOWNLOAD_DIR home := Dir]> (files fresh_home))))) [].

(** The world [main] reaches from [fresh_home] once its directories are
    made. *)
Definition ready : world :=
  mkWorld (<[CONFIG_DIR home := Dir]> (<[CACHE_DIR home := Dir]>
            (<[DOWNLOAD_DIR home := Dir]> (files fresh_home)))) [].

(** An archive of an unknown kind in the download directory, next to what
    an earlier extraction left. *)
Definition odd_staged : world :=
  mkWorld
    (<["/home/u/Downloads/install-from-github/tool-amd64.7z" := File "7z bytes" false]>
     (<["/home/u/Downloads/install-from-github/tool-amd64/old" := File "stale" true]>
      (<["/home/u/Downloads/install-from-github/tool-amd64" := Dir]> (files ready)))) [].

(** No network: every request raises. *)
Definition requests_down (url : string) : result response :=
  Raise (RequestException "connection refused").

(** A document with no ["assets"] key, and a parser that always fails. *)
Definition json_no_assets (doc : string) : option release := Some (mkRelease None).

Definition json_fails (doc : string) : option release := None.

(** A bare binary in the download directory. *)
Definition bare : world :=
  mkWorld (<["/home/u/Downloads/install-from-github/tool-linux-amd64" := File "ELF" false]> ∅) [].

End Sample.

(** * Properties *)

(** ** Strings *)

Module StrFacts.

Import Str.

Lemma append_cons c s t : String c s +:+ t = String c (s +:+ t).
Proof. reflexivity. Qed.

Lemma append_nil_l t : "" +:+ t = t.
Proof. reflexivity. Qed.

Lemma append_nil_r s : s +:+ "" = s.
Proof. induction s as [|c s IH]; [reflexivity|]. by rewrite append_cons, IH. Qed.

Lemma append_assoc s t u : (s +:+ t) +:+ u = s +:+ t +:+ u.
Proof.
  induction s as [|c s IH]; [reflexivity|].
  by rewrite !append_cons, IH.
Qed.

Lemma startswith_spec p s : startswith p s = true <-> exists r, s = p +:+ r.
Proof.
  revert s. induction p as [|a p IH]; intros s.
  - split; [intros _; by exists s | done].
  - destruct s as [|b s]; simpl.
    + split; [done | intros [r Hr]; discriminate Hr].
    + rewrite andb_true_iff, Ascii.eqb_eq, IH. split.
      * intros [-> [r ->]]. by exists r.
      * intros [r Hr]. rewrite append_cons in Hr.
        injection Hr as -> ->. eauto.
Qed.

(** [contains] is exact substring containment: the needle occurs in the
    haystack letter for letter, with some text before and after it. *)
Lemma contains_spec sub s :
  contains sub s = true <-> exists l r, s = l +:+ sub +:+ r.
Proof.
  induction s as [|c s IH].
  - simpl. rewrite orb_false_r, startswith_spec. split.
    + intros [r Hr]. by exists "", r.
    + intros [l [r Hr]]. destruct l; [by exists r | discriminate Hr].
  - simpl. rewrite orb_true_iff, startswith_spec, IH. split.
    + intros [[r Hr] | [l [r Hr]]].
      * by exists "", r.
      * exists (String c l), r. by rewrite append_cons, Hr.
    + intros [l [r Hr]]. destruct l as [|d l].
      * left. by exists r.
      * right. rewrite append_cons in Hr. injection Hr as _ ->. eauto.
Qed.

Lemma endswith_spec suffix s :
  endswith suffix s = true <-> exists l, s = l +:+ suffix.
Proof.
  induction s as [|c s IH].
  - simpl. rewrite orb_false_r, String.eqb_eq. split.
    + intros ->. by exists "".
    + intros [l Hl]. destruct l; [done | discriminate Hl].
  - simpl. rewrite orb_true_iff, String.eqb_eq, IH. split.
    + intros [-> | [l ->]]; [by exists "" | by exists (String c l)].
    + intros [l Hl]. destruct l as [|d l]; [by left | right].
      rewrite append_cons in Hl. injection Hl as _ ->. eauto.
Qed.

End StrFacts.

(** ** The selector *)

Module SelectorFacts.

Import Selector.

Lemma default_rejects_eq :
  default_rejects =
  ["mac"; "macos"; "darwin"; "apple"; "win"; "bsd"; "arm"; "aarch"; "ppc";
   "i686"; "sha256"; "deb$"; "rpm$"; "apk$"; "sig$"; "proxy-linux"].
Proof. reflexivity. Qed.

Lemma scan_select accept rejects prefer_musl appimage assets :
  scan accept rejects prefer_musl appimage assets None =
  (fun a => get browser_download_url a "") <$>
    select accept rejects prefer_musl appimage assets.
Proof.
  induction assets as [|a rest IH]; [reflexivity|].
  simpl. destruct (qualifies _ _ _); [|exact IH].
  unfold prefer.
  destruct (prefer_musl && _); [reflexivity|].
  destruct (appimage && _); [reflexivity|].
  by destruct (negb prefer_musl && negb appimage).
Qed.

Lemma qualifies_spec accept rejects n :
  qualifies accept rejects n = true <->
  Str.contains accept n = true /\
  forall r, In r rejects -> Str.contains r n = false.
Proof.
  unfold qualifies. rewrite andb_true_iff, negb_true_iff.
  split; intros [Ha Hr]; split; try done.
  - intros r Hin. destruct (Str.contains r n) eqn:E; [|done].
    assert (existsb (fun ignored => Str.contains ignored n) rejects = true) as X
      by (apply existsb_exists; eauto).
    congruence.
  - destruct (existsb _ rejects) eqn:E; [|done].
    apply existsb_exists in E as [r [Hin Hc]].
    rewrite (Hr r Hin) in Hc. discriminate.
Qed.

Lemma select_sound accept rejects prefer_musl appimage assets a :
  select accept rejects prefer_musl appimage assets = Some a ->
  In a assets /\ qualifies accept rejects (get name a "") = true.
Proof.
  induction assets as [|b rest IH]; [discriminate|].
  simpl. destruct (qualifies accept rejects (get name b "")) eqn:Q.
  - intros H.
    assert (b = a) as <-.
    { destruct (prefer_musl && _); [congruence|].
      destruct (appimage && _); [congruence|].
      destruct (negb prefer_musl && negb appimage); congruence. }
    by split; [left|].
  - intros H. destruct (IH H). by split; [right|].
Qed.

(** The scan never looks past the first asset that passes the accept and
    reject filters. *)
Lemma select_first_qualifier accept rejects prefer_musl appimage a rest :
  qualifies accept rejects (get name a "") = true ->
  select accept rejects prefer_musl appimage (a :: rest) =
  select accept rejects prefer_musl appimage [a].
Proof. intros Q. simpl. by rewrite Q. Qed.

Lemma select_skip accept rejects prefer_musl appimage a rest :
  qualifies accept rejects (get name a "") = false ->
  select accept rejects prefer_musl appimage (a :: rest) =
  select accept rejects prefer_musl appimage rest.
Proof. intros Q. simpl. by rewrite Q. Qed.

(** With a preference flag set, a selected asset carries one of the markers,
    spelled exactly. *)
Lemma select_marker accept rejects prefer_musl appimage assets a :
  prefer_musl || appimage = true ->
  select accept rejects prefer_musl appimage assets = Some a ->
  prefer_musl && Str.contains "musl" (get name a "") = true \/
  appimage && Str.contains "AppImage" (get name a "") = true.
Proof.
  intros Hflag. induction assets as [|b rest IH]; [discriminate|].
  simpl. destruct (qualifies _ _ _); [|exact IH].
  destruct (prefer_musl && Str.contains "musl" (get name b "")) eqn:E1;
    [intros [= <-]; by left|].
  destruct (appimage && Str.contains "AppImage" (get name b "")) eqn:E2;
    [intros [= <-]; by right|].
  destruct prefer_musl, appimage; simpl in *; discriminate.
Qed.

(** C1. With [prefer_musl] set and the catalog
    [tool-linux-amd64.tar.gz], [tool-linux-amd64-musl.tar.gz] (accept
    substring "64", no reject substrings), the scan ends at the first
    asset, which qualifies but has no "musl" in its name: nothing is
    selected and [download_url] stays [None].  The musl asset that follows
    is never examined; the same happens with the script's own reject list. *)
Theorem musl_after_first_qualifier_not_selected :
  let catalog := [asset "tool-linux-amd64.tar.gz" "https://host/tool-linux-amd64.tar.gz";
                  asset "tool-linux-amd64-musl.tar.gz" "https://host/tool-linux-amd64-musl.tar.gz"] in
  select "64" [] true false catalog = None /\
  scan "64" [] true false catalog None = None /\
  download_url_of true false catalog = None /\
  select "64" [] true false (tl catalog) =
    Some (asset "tool-linux-amd64-musl.tar.gz" "https://host/tool-linux-amd64-musl.tar.gz").
Proof. repeat split; reflexivity. Qed.

(** C2. The selector returns at most one asset (its result is an option),
    and an asset it returns is one of the catalog whose name contains the
    accept substring and contains none of the reject substrings, whatever
    the preference flags; so an asset whose name contains a reject substring
    is never the one returned. *)
Theorem selected_asset_passes_filters
    accept rejects prefer_musl appimage assets a :
  select accept rejects prefer_musl appimage assets = Some a ->
  In a assets /\
  Str.contains accept (get name a "") = true /\
  (forall r, In r rejects -> Str.contains r (get name a "") = false) /\
  scan accept rejects prefer_musl appimage assets None =
    Some (get browser_download_url a "").
Proof.
  intros H. destruct (select_sound _ _ _ _ _ _ H) as [Hin Q].
  apply qualifies_spec in Q as [Ha Hr].
  repeat split; try done.
  by rewrite scan_select, H.
Qed.

Lemma selected_asset_passes_filters_witness :
  let a := asset "tool-linux-amd64.tar.gz" "https://host/tool-linux-amd64.tar.gz" in
  let catalog := [asset "tool-darwin-amd64.tar.gz" "https://host/tool-darwin-amd64.tar.gz"; a] in
  In a catalog /\
  Str.contains ACCEPT_FILTER (get name a "") = true /\
  (forall r, In r default_rejects -> Str.contains r (get name a "") = false) /\
  scan ACCEPT_FILTER default_rejects false false catalog None =
    Some (get browser_download_url a "").
Proof.
  exact (selected_asset_passes_filters ACCEPT_FILTER default_rejects false false
           [asset "tool-darwin-amd64.tar.gz" "https://host/tool-darwin-amd64.tar.gz";
            asset "tool-linux-amd64.tar.gz" "https://host/tool-linux-amd64.tar.gz"]
           (asset "tool-linux-amd64.tar.gz" "https://host/tool-linux-amd64.tar.gz")
           eq_refl).
Defined.

(** The darwin asset alone is never selected, whatever the flags. *)
Example darwin_asset_rejected prefer_musl appimage :
  select_default prefer_musl appimage
    [asset "tool-darwin-amd64.tar.gz" "https://host/tool-darwin-amd64.tar.gz"] = None.
Proof. reflexivity. Qed.

(** C3. The reject list is [IGNORE_FILTER_ARCHIVE] cut at every bar, so its
    package entries are the four-character strings "deb$", "rpm$" and
    "apk$", dollar sign included, and they are looked for as substrings.  A
    name that ends in ".deb", ".rpm" or ".apk" holds no dollar sign: under
    the default policy such an asset passes the filters and is selected. *)
Theorem package_assets_are_selected :
  In "deb$" default_rejects /\ In "rpm$" default_rejects /\ In "apk$" default_rejects /\
  Str.endswith ".deb" "tool_amd64.deb" = true /\
  select_default false false [asset "tool_amd64.deb" "https://host/tool_amd64.deb"] =
    Some (asset "tool_amd64.deb" "https://host/tool_amd64.deb") /\
  download_url_of false false [asset "tool_amd64.deb" "https://host/tool_amd64.deb"] =
    Some "https://host/tool_amd64.deb" /\
  download_url_of false false [asset "tool-1.0.x86_64.rpm" "https://host/tool-1.0.x86_64.rpm"] =
    Some "https://host/tool-1.0.x86_64.rpm" /\
  download_url_of false false [asset "tool_x86_64.apk" "https://host/tool_x86_64.apk"] =
    Some "https://host/tool_x86_64.apk".
Proof. rewrite default_rejects_eq. simpl. repeat split; auto 20. Qed.

(** C10. Matching is case-sensitive.  [contains] holds exactly when the
    needle occurs in the name letter for letter, and the accept test, every
    reject test and both preference markers are [contains] tests.  So the
    reject entry "darwin" does not match "tool-Darwin-x64.tar.gz", and with
    the AppImage preference an asset named with lowercase "appimage" is not
    selected while the same asset spelled "AppImage" is; likewise "MUSL"
    does not satisfy the musl preference. *)
Theorem matching_is_case_sensitive :
  (forall sub s, Str.contains sub s = true <-> exists l r, s = l +:+ sub +:+ r) /\
  (forall accept rejects n,
     qualifies accept rejects n = true <->
     Str.contains accept n = true /\
     forall r, In r rejects -> Str.contains r n = false) /\
  (forall accept rejects prefer_musl appimage assets a,
     prefer_musl || appimage = true ->
     select accept rejects prefer_musl appimage assets = Some a ->
     prefer_musl && Str.contains "musl" (get name a "") = true \/
     appimage && Str.contains "AppImage" (get name a "") = true) /\
  Str.contains "darwin" "tool-Darwin-x64.tar.gz" = false /\
  Str.contains "darwin" "tool-darwin-x64.tar.gz" = true /\
  qualifies ACCEPT_FILTER ["darwin"] "tool-Darwin-x64.tar.gz" = true /\
  Str.contains "AppImage" "tool-x86_64.appimage" = false /\
  select_default false true [asset "tool-x86_64.appimage" "https://host/tool-x86_64.appimage"] = None /\
  select_default false true [asset "tool-x86_64.AppImage" "https://host/tool-x86_64.AppImage"] =
    Some (asset "tool-x86_64.AppImage" "https://host/tool-x86_64.AppImage") /\
  select_default true false [asset "tool-x86_64-MUSL.tar.gz" "https://host/tool-x86_64-MUSL.tar.gz"] = None /\
  select_default true false [asset "tool-x86_64-musl.tar.gz" "https://host/tool-x86_64-musl.tar.gz"] =
    Some (asset "tool-x86_64-musl.tar.gz" "https://host/tool-x86_64-musl.tar.gz").
Proof.
  split; [exact StrFacts.contains_spec|].
  split; [exact qualifies_spec|].
  split; [exact select_marker|].
  repeat split; reflexivity.
Qed.

End SelectorFacts.

(** ** The orchestrator *)

Module ScriptFacts.

Import Os Eff Selector Script.

Section Run.

Variable home : string.
Variable requests_get : string -> result response.
Variable json_load : string -> option release.
Variable wget : string -> gmap string node -> option (gmap string node).
Variable decode : archive_format -> string -> list (string * node) * bool.

Abbreviation download_asset_list := (download_asset_list requests_get).
Abbreviation process_project := (process_project home requests_get json_load wget decode).
Abbreviation main := (main home requests_get json_load wget decode).
Abbreviation cache_file := (cache_file home).

Lemma say_nil w : say w [] = w.
Proof. destruct w. unfold say. simpl. by rewrite app_nil_r. Qed.

Lemma say_say w o1 o2 : say (say w o1) o2 = say w (o1 ++ o2).
Proof. unfold say. simpl. by rewrite app_assoc. Qed.

Lemma for_each_cons {A} (x : A) xs body w :
  for_each (x :: xs) body w =
  match body x w with
  | (Ok _, w') => for_each xs body w'
  | (Raise e, w') => (Raise e, w')
  end.
Proof. reflexivity. Qed.

(** A catalog fetch answered with a status other than 200: two console
    lines, no file written, [False] returned. *)
Lemma download_asset_list_bad_status project filename verbose dev_mode w resp :
  dev_mode && path_exists (files w) filename = false ->
  requests_get (api_url project) = Ok resp ->
  status_code resp <> 200 ->
  download_asset_list project filename verbose dev_mode w =
  (Ok (Some false),
   say w [(Info, "Downloading asset list for " +:+ project +:+ "...");
          (Error, "Failed to download " +:+ project +:+ ": " +:+
                  NilZero.string_of_uint (Nat.to_uint (status_code resp)))]).
Proof.
  intros Hdev Hget Hne.
  unfold Script.download_asset_list, bind, get_files, try_except, info, error, emit, say.
  rewrite Hdev, Hget.
  apply Nat.eqb_neq in Hne. rewrite Hne. simpl.
  by rewrite <- app_assoc.
Qed.

(** A catalog fetch that raised: the exception is caught and reported. *)
Lemma download_asset_list_raised project filename verbose dev_mode w e :
  dev_mode && path_exists (files w) filename = false ->
  requests_get (api_url project) = Raise e ->
  is_Exception e = true ->
  download_asset_list project filename verbose dev_mode w =
  (Ok (Some false),
   say w [(Info, "Downloading asset list for " +:+ project +:+ "...");
          (Error, "Download failed: " +:+ exn_str e)]).
Proof.
  intros Hdev Hget He.
  unfold Script.download_asset_list, bind, get_files, try_except, info, error, emit, say, raise.
  rewrite Hdev, Hget. simpl. rewrite He. simpl.
  by rewrite <- app_assoc.
Qed.

(** In dev mode with the cache file present nothing is fetched or printed,
    and the function returns [None]. *)
Lemma download_asset_list_cached project filename verbose w :
  path_exists (files w) filename = true ->
  download_asset_list project filename verbose true w = (Ok None, w).
Proof.
  intros Hex. unfold Script.download_asset_list, bind, get_files.
  by rewrite Hex.
Qed.

(** A project whose catalog step hands back a falsy value is left at that. *)
Lemma process_project_skipped a project w r w' :
  download_asset_list project (cache_file project) (verbose a) (dev a)
    (say w [(Header, "Processing " +:+ project)]) = (Ok r, w') ->
  truthy r = false ->
  process_project a project w = (Ok tt, w').
Proof.
  intros Hd Hr. unfold Script.process_project, bind, header, emit.
  change (mkWorld (files w) (console w ++ [(Header, "Processing " +:+ project)]))
    with (say w [(Header, "Processing " +:+ project)]).
  simpl. rewrite Hd. simpl. by rewrite Hr.
Qed.

Lemma process_project_dev_cached a project w :
  dev a = true ->
  path_exists (files w) (cache_file project) = true ->
  process_project a project w = (Ok tt, say w [(Header, "Processing " +:+ project)]).
Proof.
  intros Hdev Hex. apply (process_project_skipped a project w None); [|reflexivity].
  rewrite Hdev. by apply download_asset_list_cached.
Qed.

(** C8. When the catalog fetch of a project is answered with a status other
    than 200, [download_asset_list] prints its two lines, returns [False]
    and leaves every file as it was (the cache path included); nothing is
    raised, and the loop of [main] goes on with the remaining projects from
    that world. *)
Theorem http_failure_skips_project a project rest w resp :
  dev a && path_exists (files w) (cache_file project) = false ->
  requests_get (api_url project) = Ok resp ->
  status_code resp <> 200 ->
  let failure :=
    [(Info, "Downloading asset list for " +:+ project +:+ "...");
     (Error, "Failed to download " +:+ project +:+ ": " +:+
             NilZero.string_of_uint (Nat.to_uint (status_code resp)))] in
  download_asset_list project (cache_file project) (verbose a) (dev a) w =
    (Ok (Some false), say w failure) /\
  files (say w failure) = files w /\
  for_each (project :: rest) (process_project a) w =
    for_each rest (process_project a)
      (say w ((Header, "Processing " +:+ project) :: failure)).
Proof.
  intros Hdev Hget Hne failure. split; [|split; [reflexivity|]].
  - by apply download_asset_list_bad_status.
  - rewrite for_each_cons.
    rewrite (process_project_skipped a project w (Some false)
               (say (say w [(Header, "Processing " +:+ project)]) failure));
      [by rewrite say_say | | reflexivity].
    by apply download_asset_list_bad_status.
Qed.

(** A catalog fetch answered with status 200: the body is written to the
    cache file and [True] is returned. *)
Lemma download_asset_list_ok project filename verbose dev_mode w resp :
  dev_mode && path_exists (files w) filename = false ->
  requests_get (api_url project) = Ok resp ->
  status_code resp = 200 ->
  is_dir (files w) filename = false ->
  download_asset_list project filename verbose dev_mode w =
  (Ok (Some true),
   mkWorld (written filename (text resp) (files w))
     (console w ++
      (Info, "Downloading asset list for " +:+ project +:+ "...") ::
      (if verbose then [(Plain, text resp)] else []))).
Proof.
  intros Hdev Hget Hst Hdir.
  unfold Script.download_asset_list, bind, get_files, try_except, info, emit,
    write_text, put_files, bind, get_files.
  rewrite Hdev, Hget, Hst. simpl. rewrite Hdir. simpl.
  destruct verbose; simpl; try rewrite <- app_assoc; reflexivity.
Qed.

(** The transfer tool exits with a non-zero status: [check=True] raises, and
    nothing in [download_and_extract_archive] catches it. *)
Lemma download_and_extract_archive_wget_fails project filename pm ai w bytes x doc url :
  files w !! filename = Some (File bytes x) ->
  json_load bytes = Some doc ->
  download_url_of pm ai (assets_of doc) = Some url ->
  Str.truthy url = true ->
  wget url (files w) = None ->
  download_and_extract_archive home json_load wget decode project filename pm ai false w =
  (Raise CalledProcessError,
   say w [(Info, "Filtering archives for " +:+ project);
          (Info, "Downloading archive: " +:+ url)]).
Proof.
  intros Hf Hj Hu Ht Hw.
  unfold download_and_extract_archive, bind, info, emit, read_text, get_files,
    run_wget, bind, get_files, raise, ret, say.
  simpl. rewrite Hf. simpl. rewrite Hj, Hu, Ht. simpl. rewrite Hw.
  by rewrite <- app_assoc.
Qed.

Lemma process_project_wget_fails a project w resp doc url :
  dev a = false ->
  is_dir (files w) (cache_file project) = false ->
  requests_get (api_url project) = Ok resp ->
  status_code resp = 200 ->
  json_load (text resp) = Some doc ->
  download_url_of (prefer_musl a) (appimage a) (assets_of doc) = Some url ->
  Str.truthy url = true ->
  wget url (written (cache_file project) (text resp) (files w)) = None ->
  process_project a project w =
  (Raise CalledProcessError,
   mkWorld (written (cache_file project) (text resp) (files w))
     (console w ++
      [(Header, "Processing " +:+ project);
       (Info, "Downloading asset list for " +:+ project +:+ "...")] ++
      (if verbose a then [(Plain, text resp)] else []) ++
      [(Info, "Filtering archives for " +:+ project);
       (Info, "Downloading archive: " +:+ url)])).
Proof.
  intros Hdev Hdir Hget Hst Hj Hu Ht Hw.
  unfold Script.process_project, bind, header, emit. simpl.
  rewrite (download_asset_list_ok _ _ _ _ _ resp); simpl; try done.
  2: by rewrite Hdev.
  rewrite Hdev.
  erewrite download_and_extract_archive_wget_fails; simpl; eauto.
  2: { unfold written. apply lookup_insert_eq. }
  unfold say. simpl. f_equal. f_equal.
  rewrite <- !app_assoc. simpl. by destruct (verbose a).
Qed.

(** An exception that leaves the body of the loop ends the loop. *)
Lemma for_each_raise {A} (x : A) xs body w e w' :
  body x w = (Raise e, w') ->
  for_each (x :: xs) body w = (Raise e, w').
Proof. intros H. by rewrite for_each_cons, H. Qed.


Lemma process_project_catalog_step_falsy a project w :
  catalog_step_falsy home requests_get a (files w) project = true ->
  exists out, process_project a project w = (Ok tt, say w out).
Proof.
  unfold catalog_step_falsy, fetch_fails. intros H.
  destruct (dev a && path_exists (files w) (cache_file project)) eqn:Hdev.
  - apply andb_true_iff in Hdev as [Hd Hex].
    eexists. by apply process_project_dev_cached.
  - simpl in H.
    destruct (requests_get (api_url project)) as [resp|e] eqn:Hget.
    + apply negb_true_iff, Nat.eqb_neq in H.
      eexists. apply (process_project_skipped a project w (Some false)); [|done].
      rewrite (download_asset_list_bad_status _ _ _ _ _ resp); try done.
      by rewrite say_say.
    + eexists. apply (process_project_skipped a project w (Some false)); [|done].
      rewrite (download_asset_list_raised _ _ _ _ _ e); try done.
      by rewrite say_say.
Qed.

(** Projects whose catalog step is falsy are logged and passed over: the
    loop returns and no file changes. *)
Lemma for_each_all_skipped a ps w :
  (forall p, In p ps -> catalog_step_falsy home requests_get a (files w) p = true) ->
  exists out, for_each ps (process_project a) w = (Ok tt, say w out).
Proof.
  revert w. induction ps as [|p ps IH]; intros w H.
  - exists []. by rewrite say_nil.
  - destruct (process_project_catalog_step_falsy a p w) as [o1 E1];
      [apply H; by left|].
    destruct (IH (say w o1)) as [o2 E2]; [intros q Hq; apply H; by right|].
    exists (o1 ++ o2). by rewrite for_each_cons, E1, E2, say_say.
Qed.

(** [main] once its directories are made and its project list is resolved. *)
Lemma main_resolved a w ps w1 :
  (makedirs (DOWNLOAD_DIR home) ;; makedirs (CACHE_DIR home) ;;
   makedirs (CONFIG_DIR home) ;; resolve_projects home a) w = (Ok ps, w1) ->
  main a w =
  match ps with
  | [] => (Raise (SystemExit 1), say w1 [(Error, "No projects to install.")])
  | _ => for_each ps (process_project a) w1
  end.
Proof.
  unfold Script.main, bind.
  destruct (makedirs (DOWNLOAD_DIR home) w) as [[[]|?] ?]; [|discriminate].
  destruct (makedirs (CACHE_DIR home) _) as [[[]|?] ?]; [|discriminate].
  destruct (makedirs (CONFIG_DIR home) _) as [[[]|?] ?]; [|discriminate].
  destruct (resolve_projects home a _) as [[l|?] ?]; [|discriminate].
  intros [= -> ->]. by destruct ps.
Qed.

Lemma for_each_app {A} (xs ys : list A) body w :
  for_each (xs ++ ys) body w =
  match for_each xs body w with
  | (Ok _, w') => for_each ys body w'
  | (Raise e, w') => (Raise e, w')
  end.
Proof.
  revert w. induction xs as [|x xs IH]; intros w; [reflexivity|].
  simpl app. rewrite !for_each_cons.
  destruct (body x w) as [[[]|e] w']; [apply IH | reflexivity].
Qed.

(** The loop returns when each element's body returns in the world the
    elements before it have left. *)
Lemma for_each_returns {A} (ps : list A) body w :
  (forall before p after w',
     ps = before ++ p :: after ->
     for_each before body w = (Ok tt, w') ->
     exists w'', body p w' = (Ok tt, w'')) ->
  exists w2, for_each ps body w = (Ok tt, w2).
Proof.
  revert w. induction ps as [|p ps IH]; intros w H; [by exists w|].
  destruct (H [] p ps w eq_refl eq_refl) as [w'' E].
  destruct (IH w'') as [w2 E2].
  { intros before q after w' -> Hb. apply (H (p :: before) q after w'); [done|].
    by rewrite for_each_cons, E. }
  exists w2. by rewrite for_each_cons, E.
Qed.

(** [fresh_folder] raises exceptions only, and every entry it leaves is the
    new folder or was there before. *)
Lemma fresh_folder_result folder w :
  match fresh_folder folder w with
  | (Ok _, wb) =>
      forall k n, files wb !! k = Some n -> n = Dir \/ files w !! k = Some n
  | (Raise e, _) => is_Exception e = true
  end.
Proof.
  unfold fresh_folder, bind, get_files, rmtree, mkdir, put_files, raise, ret,
    bind, get_files, path_exists.
  destruct (files w !! folder) as [[wd|bytes m]|] eqn:E; cbn [files console]; [| |].
  - rewrite E. destruct (locked_tree folder (files w)); [done|]. cbn [files console].
    destruct (remove_tree folder (files w) !! folder); [done|]. cbn [files].
    intros k n. destruct (decide (folder = k)) as [<-|Hne].
    + rewrite lookup_insert_eq. intros [= <-]. by left.
    + rewrite lookup_insert_ne by done. unfold remove_tree.
      intros Hk. apply map_lookup_filter_Some_1_1 in Hk. by right.
  - by rewrite E.
  - rewrite E. cbn [files].
    intros k n. destruct (decide (folder = k)) as [<-|Hne].
    + rewrite lookup_insert_eq. intros [= <-]. by left.
    + rewrite lookup_insert_ne by done. by right.
Qed.

(** An archive of a known kind that is missing, or that its decoder
    rejects, makes [extract_archive] raise. *)
Lemma extract_archive_decoder_fails filename fmt w :
  archive_format_of filename = Some fmt ->
  (forall bytes m, files w !! filename = Some (File bytes m) ->
                   (decode fmt bytes).2 = false) ->
  exists e w', extract_archive home decode filename w = (Raise e, w') /\
               is_Exception e = true.
Proof.
  intros Hfmt Hfail. unfold extract_archive.
  destruct (splitext filename) as [folder ext]. unfold bind at 1.
  pose proof (fresh_folder_result folder w) as Hfresh.
  destruct (fresh_folder folder w) as [[[]|e] wb]; [|by exists e, wb].
  unfold bind, info, emit, run_decoder, get_files, put_files, raise, ret, bind.
  cbn [files console]. rewrite Hfmt. cbn [files console].
  destruct (files wb !! filename) as [[wd|bytes m]|] eqn:E; cbn [files console];
    try (eexists _, _; split; reflexivity).
  destruct (Hfresh _ _ E) as [?|Hold]; [done|].
  rewrite (Hfail bytes m Hold). eexists _, _. split; reflexivity.
Qed.

Lemma process_project_decoder_fails a project w resp doc url fs2 fmt :
  dev a = false ->
  is_dir (files w) (cache_file project) = false ->
  requests_get (api_url project) = Ok resp ->
  status_code resp = 200 ->
  json_load (text resp) = Some doc ->
  download_url_of (prefer_musl a) (appimage a) (assets_of doc) = Some url ->
  Str.truthy url = true ->
  wget url (written (cache_file project) (text resp) (files w)) = Some fs2 ->
  archive_format_of (join (DOWNLOAD_DIR home) (basename url)) = Some fmt ->
  (forall bytes m,
     fs2 !! join (DOWNLOAD_DIR home) (basename url) = Some (File bytes m) ->
     (decode fmt bytes).2 = false) ->
  exists e w', process_project a project w = (Raise e, w') /\ is_Exception e = true.
Proof.
  intros Hdev Hdir Hget Hst Hj Hu Ht Hw Hfmt Hfail.
  unfold Script.process_project, bind, header, emit. cbn [files console].
  rewrite (download_asset_list_ok _ _ _ _ _ resp); cbn [files console]; try done.
  2: by rewrite Hdev.
  cbn [truthy]. rewrite Hdev.
  unfold download_and_extract_archive, bind, info, emit, read_text,
    get_files, bind, get_files, ret, raise, run_wget, put_files, bind, get_files.
  cbn [files console]. unfold written at 1. rewrite lookup_insert_eq.
  cbn [files console]. rewrite Hj, Hu, Ht. cbn [files console negb].
  fold (written (cache_file project) (text resp) (files w)). rewrite Hw.
  cbn [files console].
  apply (extract_archive_decoder_fails _ fmt (mkWorld fs2 _)); [done|].
  cbn [files]. exact Hfail.
Qed.

(** What [main] does once a first part of the list has returned and the
    next project raises. *)
Lemma main_raises_at a w ps w1 before p after w' e w'' :
  (makedirs (DOWNLOAD_DIR home) ;; makedirs (CACHE_DIR home) ;;
   makedirs (CONFIG_DIR home) ;; resolve_projects home a) w = (Ok ps, w1) ->
  ps = before ++ p :: after ->
  for_each before (process_project a) w1 = (Ok tt, w') ->
  process_project a p w' = (Raise e, w'') ->
  main a w = (Raise e, w'').
Proof.
  intros H -> Hb Hp. rewrite (main_resolved _ _ _ _ H).
  assert (for_each (before ++ p :: after) (process_project a) w1 = (Raise e, w'')) as E.
  { by rewrite for_each_app, Hb, for_each_cons, Hp. }
  rewrite <- E. by destruct before.
Qed.


End Run.

End ScriptFacts.

(** ** Paths *)

Module OsFacts.

Import Str Os StrFacts.

Lemma rsplit_spec c s l r : rsplit c s = Some (l, r) -> s = l +:+ String c r.
Proof.
  revert l. induction s as [|a s IH]; intros l; [discriminate|].
  simpl. destruct (rsplit c s) as [[l' r']|].
  - intros [= <- <-]. by rewrite append_cons, <- (IH l').
  - destruct (Ascii.eqb a c) eqn:E; [|discriminate].
    apply Ascii.eqb_eq in E as ->. by intros [= <- <-].
Qed.

(** What follows the last occurrence holds no occurrence. *)
Lemma rsplit_rest c s l r : rsplit c s = Some (l, r) -> rsplit c r = None.
Proof.
  revert l. induction s as [|a s IH]; intros l; [discriminate|].
  simpl. destruct (rsplit c s) as [[l' r']|] eqn:E.
  - intros [= <- <-]. by apply (IH l').
  - destruct (Ascii.eqb a c); [|discriminate]. by intros [= <- <-].
Qed.

Lemma rsplit_last c l r : rsplit c r = None -> rsplit c (l +:+ String c r) = Some (l, r).
Proof.
  intros Hr. induction l as [|a l IH].
  - simpl. by rewrite Hr, Ascii.eqb_refl.
  - rewrite append_cons. simpl. by rewrite IH.
Qed.

Lemma rsplit_None_head c s : rsplit c s = None -> startswith (String c "") s = false.
Proof.
  destruct s as [|a s]; [done|]. simpl.
  destruct (rsplit c s) as [[? ?]|]; [discriminate|].
  rewrite (Ascii.eqb_sym c a). by destruct (Ascii.eqb a c).
Qed.

Lemma basename_no_slash p : rsplit "/" (basename p) = None.
Proof.
  unfold basename. destruct (rsplit "/" p) as [[l r]|] eqn:E; [|done].
  by apply rsplit_rest in E.
Qed.

Lemma truthy_app h c t : truthy (h +:+ String c t) = true.
Proof. by destruct h. Qed.

Lemma startswith_app h a b : startswith (h +:+ a) (h +:+ b) = startswith a b.
Proof.
  induction h as [|c h IH]; [done|].
  rewrite !append_cons. simpl. by rewrite Ascii.eqb_refl.
Qed.

Lemma eqb_app h a b : String.eqb (h +:+ a) (h +:+ b) = String.eqb a b.
Proof.
  induction h as [|c h IH]; [done|].
  rewrite !append_cons. simpl. by rewrite Ascii.eqb_refl.
Qed.

Lemma length_app s t : String.length (s +:+ t) = String.length s + String.length t.
Proof. induction s as [|c s IH]; [done|]. rewrite append_cons. simpl. by rewrite IH. Qed.

Lemma eqb_length s t : String.length s <> String.length t -> String.eqb s t = false.
Proof. intros H. apply String.eqb_neq. by intros ->. Qed.

(** A suffix no longer than the tail is looked for in the tail alone. *)
Lemma endswith_app x h t :
  String.length x <= String.length t -> endswith x (h +:+ t) = endswith x t.
Proof.
  intros Hlen. induction h as [|c h IH]; [done|].
  rewrite append_cons. simpl. rewrite IH, eqb_length; [done|].
  simpl. rewrite length_app. lia.
Qed.

(** [os.path.join] of a directory that does not end in a slash with a
    name that holds no slash. *)
Lemma join_plain h c t b :
  endswith "/" (String c t) = false ->
  rsplit "/" b = None ->
  join (h +:+ String c t) b = (h +:+ String c t) +:+ "/" +:+ b.
Proof.
  intros He Hb. unfold join.
  rewrite (rsplit_None_head _ _ Hb), truthy_app.
  rewrite endswith_app by (simpl; lia). by rewrite He.
Qed.

(** The folder of an archive lies in the directory of the archive. *)
Lemma splitext_plain d b :
  rsplit "/" b = None ->
  exists s, (splitext (d +:+ "/" +:+ b)).1 = d +:+ "/" +:+ s.
Proof.
  intros Hb. unfold splitext.
  change ("/" +:+ b) with (String "/" b). rewrite (rsplit_last "/" d b Hb).
  destruct (rsplit "." b) as [[stem e]|]; [|by exists b].
  destruct (all_dots stem); [by exists b|].
  exists stem. simpl. by rewrite append_assoc.
Qed.

Lemma all_slashes_app a b : all_slashes (a +:+ b) = all_slashes a && all_slashes b.
Proof.
  induction a as [|c a IH]; [done|].
  rewrite append_cons. simpl. by rewrite IH, andb_assoc.
Qed.

Lemma rstrip_slashes_app a b :
  rstrip_slashes b <> "" -> rstrip_slashes (a +:+ b) = a +:+ rstrip_slashes b.
Proof.
  intros Hb. induction a as [|c a IH]; [done|].
  rewrite !append_cons. simpl. rewrite IH.
  destruct (a +:+ rstrip_slashes b) eqn:E; [|done].
  destruct a; [|discriminate E]. by destruct Hb.
Qed.

(** [os.path.dirname] of a name in a directory gives the directory. *)
Lemma dirname_plain h tail b :
  rsplit "/" b = None ->
  all_slashes (tail +:+ "/") = false ->
  rstrip_slashes (tail +:+ "/") = tail ->
  tail <> "" ->
  dirname ((h +:+ tail) +:+ "/" +:+ b) = h +:+ tail.
Proof.
  intros Hb Hs Hr Ht. unfold dirname.
  change ("/" +:+ b) with (String "/" b). rewrite (rsplit_last "/" (h +:+ tail) b Hb).
  cbv zeta. rewrite append_assoc, all_slashes_app, Hs, andb_false_r.
  rewrite rstrip_slashes_app; by rewrite Hr.
Qed.

Lemma within_refl d : within d d = true.
Proof. unfold within. by rewrite String.eqb_refl. Qed.

Lemma below_within d p : below d p = true -> within d p = true.
Proof. unfold within. intros ->. apply orb_true_r. Qed.

Lemma below_irrefl d : below d d = false.
Proof.
  unfold below. destruct (startswith (d +:+ "/") d) eqn:E; [|done].
  apply startswith_spec in E as [r Hr].
  apply (f_equal String.length) in Hr. rewrite !length_app in Hr. simpl in Hr. lia.
Qed.

End OsFacts.

(** ** The filesystem *)

Module FsFacts.

Import Str Os StrFacts OsFacts.

Lemma remove_tree_lookup d (fs : gmap string node) k :
  remove_tree d fs !! k = if within d k then None else fs !! k.
Proof.
  unfold remove_tree. destruct (within d k) eqn:E.
  - apply map_lookup_filter_None. right. intros x _. simpl. by rewrite E.
  - destruct (fs !! k) as [x|] eqn:F.
    + apply map_lookup_filter_Some. by split.
    + apply map_lookup_filter_None. by left.
Qed.

Lemma write_all_lookup es (fs : gmap string node) k :
  write_all es fs !! k =
  match write_all es ∅ !! k with
  | Some n => Some n
  | None => fs !! k
  end.
Proof.
  revert fs. induction es as [|[p n] es IH]; intros fs; simpl.
  - by rewrite lookup_empty.
  - rewrite (IH (<[p:=n]> fs)), (IH (<[p:=n]> ∅)).
    destruct (write_all es ∅ !! k); [done|].
    destruct (decide (p = k)) as [->|Hne].
    + by rewrite !lookup_insert_eq.
    + by rewrite !lookup_insert_ne, lookup_empty.
Qed.

Lemma write_all_keys es k n :
  write_all es (∅ : gmap string node) !! k = Some n -> In (k, n) es.
Proof.
  induction es as [|[p m] es IH]; simpl.
  - by rewrite lookup_empty.
  - rewrite write_all_lookup. destruct (write_all es ∅ !! k) eqn:E.
    + intros [= ->]. right. by apply IH.
    + destruct (decide (p = k)) as [->|Hne].
      * rewrite lookup_insert_eq. intros [= ->]. by left.
      * by rewrite lookup_insert_ne, lookup_empty.
Qed.

Lemma write_all_written es k n :
  In (k, n) es -> is_Some (write_all es (∅ : gmap string node) !! k).
Proof.
  induction es as [|[p m] es IH]; simpl; [done|].
  intros [[= -> ->]|Hin]; rewrite write_all_lookup.
  - destruct (write_all es ∅ !! k); [by eexists|].
    rewrite lookup_insert_eq. by eexists.
  - destruct (IH Hin) as [x ->]. by eexists.
Qed.

(** Writing the same entries a second time changes nothing. *)
Lemma write_all_twice es (fs : gmap string node) :
  write_all es (write_all es fs) = write_all es fs.
Proof.
  apply map_eq. intros k. rewrite write_all_lookup.
  destruct (write_all es ∅ !! k) eqn:E; [|done].
  by rewrite write_all_lookup, E.
Qed.

Lemma below_member d rel : below d (d +:+ "/" +:+ rel) = true.
Proof.
  unfold below. apply startswith_spec. exists rel. by rewrite append_assoc.
Qed.

Lemma write_members_keys d ms k n :
  write_members d ms (∅ : gmap string node) !! k = Some n -> below d k = true.
Proof.
  unfold write_members. intros H. apply write_all_keys in H.
  apply in_map_iff in H as [[rel m] [[= <- <-] _]]. simpl. apply below_member.
Qed.

Lemma write_members_lookup d ms (fs : gmap string node) k :
  write_members d ms fs !! k =
  match write_members d ms ∅ !! k with
  | Some n => Some n
  | None => fs !! k
  end.
Proof. apply write_all_lookup. Qed.

Lemma write_members_outside d ms (fs : gmap string node) k :
  below d k = false -> write_members d ms fs !! k = fs !! k.
Proof.
  intros Hb. rewrite write_members_lookup.
  destruct (write_members d ms ∅ !! k) eqn:E; [|done].
  apply write_members_keys in E. congruence.
Qed.

Lemma elem_of_walk_files d (fs : gmap string node) p n :
  (p, n) ∈ walk_files d fs <->
  fs !! p = Some n /\ below d p = true /\ is_directory n = false /\
  reachable d fs p = true.
Proof.
  unfold walk_files. rewrite elem_of_map_to_list, map_lookup_filter_Some.
  simpl. tauto.
Qed.

(** What can be reached below a directory depends on the tree only. *)
Lemma reachable_ext d (fs fs' : gmap string node) p :
  (forall k, within d k = true -> fs !! k = fs' !! k) ->
  reachable d fs p = reachable d fs' p.
Proof.
  intros H. unfold reachable.
  assert (filter (fun kv : string * node =>
                    within d kv.1 = true /\ below kv.1 p = true /\ shut kv.2 = true) fs =
          filter (fun kv : string * node =>
                    within d kv.1 = true /\ below kv.1 p = true /\ shut kv.2 = true) fs')
    as ->; [|done].
  apply map_eq. intros k. apply option_eq. intros n.
  rewrite !map_lookup_filter_Some. simpl.
  split; intros (A & B & C & D); (split; [|done]); [by rewrite <- H | by rewrite H].
Qed.

(** The walk of a directory depends on the tree only. *)
Lemma walk_files_ext d (fs fs' : gmap string node) :
  (forall k, within d k = true -> fs !! k = fs' !! k) ->
  walk_files d fs = walk_files d fs'.
Proof.
  intros H. unfold walk_files. f_equal.
  apply map_eq. intros k. apply option_eq. intros n.
  rewrite !map_lookup_filter_Some. simpl.
  rewrite (reachable_ext d fs fs' k H).
  split; intros (A & B & C & D); (split; [|done]);
    [rewrite <- H | rewrite H]; try done; by apply below_within.
Qed.

Lemma unrestricted_not_shut n : unrestricted n = true -> shut n = false.
Proof. destruct n as [[[] [] []]|text m]; simpl; by try discriminate. Qed.

(** A tree whose entries are unrestricted can be walked and removed. *)
Lemma reachable_unrestricted d (fs : gmap string node) p :
  (forall k n, within d k = true -> fs !! k = Some n -> unrestricted n = true) ->
  reachable d fs p = true.
Proof.
  intros H. unfold reachable. apply bool_decide_eq_true, map_empty_filter_2.
  intros k n Hk (Hw & _ & Hs). simpl in *.
  by rewrite (unrestricted_not_shut n (H k n Hw Hk)) in Hs.
Qed.

Lemma locked_tree_unrestricted d (fs : gmap string node) :
  (forall k n, within d k = true -> fs !! k = Some n -> unrestricted n = true) ->
  locked_tree d fs = false.
Proof.
  intros H. unfold locked_tree. apply negb_false_iff, bool_decide_eq_true.
  apply map_empty_filter_2. intros k n Hk [Hw Hb]. simpl in *.
  specialize (H k n Hw Hk). unfold blocks_removal in Hb. simpl in Hb.
  destruct n as [[[] [] []]|text m]; simpl in *; try discriminate.
  by rewrite andb_false_r in Hb.
Qed.

Lemma write_members_member d ms k n :
  write_members d ms (∅ : gmap string node) !! k = Some n -> exists rel, In (rel, n) ms.
Proof.
  unfold write_members. intros H. apply write_all_keys in H.
  apply in_map_iff in H as [[rel m] [[= <- <-] Hin]]. by exists rel.
Qed.

Lemma no_orphans_absent d (fs : gmap string node) k :
  no_orphans d fs = true -> fs !! d = None -> below d k = true -> fs !! k = None.
Proof.
  unfold no_orphans, path_exists. intros H Hd Hk. rewrite Hd in H. simpl in H.
  apply bool_decide_eq_true in H.
  destruct (fs !! k) as [x|] eqn:E; [|done].
  assert (filter (fun kv : string * node => below d kv.1 = true) fs !! k = Some x) as F
    by (by apply map_lookup_filter_Some).
  rewrite H, lookup_empty in F. discriminate.
Qed.

End FsFacts.

(** ** Extraction *)

Module ExtractFacts.

Import Str Os Eff Script StrFacts OsFacts FsFacts.

Section Run.

Variable home : string.
Variable decode : archive_format -> string -> list (string * node) * bool.

Abbreviation BIN := (BINARY_DIR home).
Abbreviation DOWNLOADS := (DOWNLOAD_DIR home).
Abbreviation copy_executables := (copy_executables home).
Abbreviation copy_target := (copy_target home).
Abbreviation copy_writes := (copy_writes home).
Abbreviation extract_archive := (extract_archive home decode).
Abbreviation copied := (copied home).

Lemma world_eta w : mkWorld (files w) (console w) = w.
Proof. by destruct w. Qed.

Lemma remove_absent_tree folder (fs : gmap string node) :
  no_orphans folder fs = true -> fs !! folder = None -> remove_tree folder fs = fs.
Proof.
  intros Hno E. apply map_eq. intros k.
  rewrite remove_tree_lookup. destruct (within folder k) eqn:W; [|done].
  unfold within in W. apply orb_true_iff in W as [W|W].
  - apply String.eqb_eq in W as <-. done.
  - symmetry. by apply (no_orphans_absent folder).
Qed.

(** [fresh_folder] fails on a regular file and on a tree that cannot be
    removed, and otherwise leaves a new, empty directory. *)
Lemma fresh_folder_run folder w :
  no_orphans folder (files w) = true ->
  fresh_folder folder w =
  match files w !! folder with
  | Some (File _ _) => (Raise NotADirectoryError, w)
  | Some (Directory _) =>
      if locked_tree folder (files w) then (Raise PermissionError, w)
      else (Ok tt, mkWorld (<[folder := Dir]> (remove_tree folder (files w))) (console w))
  | None => (Ok tt, mkWorld (<[folder := Dir]> (remove_tree folder (files w))) (console w))
  end.
Proof.
  intros Hno.
  unfold fresh_folder, bind, get_files, rmtree, mkdir, put_files, raise, ret,
    bind, get_files, path_exists.
  destruct (files w !! folder) as [[m|bytes x]|] eqn:E; cbn [files console].
  - rewrite E. destruct (locked_tree folder (files w)); [done|]. cbn [files console].
    by rewrite remove_tree_lookup, within_refl.
  - by rewrite E.
  - rewrite E. by rewrite (remove_absent_tree folder (files w) Hno E).
Qed.

(** A [fresh_folder] that returned has left the new, empty directory. *)
Lemma fresh_folder_inv folder w wb :
  no_orphans folder (files w) = true ->
  fresh_folder folder w = (Ok tt, wb) ->
  wb = mkWorld (<[folder := Dir]> (remove_tree folder (files w))) (console w).
Proof.
  intros Hno. rewrite (fresh_folder_run folder w Hno).
  destruct (files w !! folder) as [[m|bytes x]|]; [|discriminate|congruence].
  destruct (locked_tree folder (files w)); [discriminate|congruence].
Qed.

(** On a directory whose tree is unrestricted [fresh_folder] returns. *)
Lemma fresh_folder_again folder w :
  files w !! folder = Some Dir ->
  (forall k n, within folder k = true -> files w !! k = Some n -> unrestricted n = true) ->
  fresh_folder folder w =
  (Ok tt, mkWorld (<[folder := Dir]> (remove_tree folder (files w))) (console w)).
Proof.
  intros Hd Hall. rewrite fresh_folder_run.
  - by rewrite Hd, (locked_tree_unrestricted folder (files w) Hall).
  - unfold no_orphans, path_exists. by rewrite Hd.
Qed.

(** A copy that returned read a file and wrote it at its target, which was
    not a directory. *)
Lemma copy_inv src dst w w' :
  copy src dst w = (Ok tt, w') ->
  let target := if is_dir (files w) dst then join dst (basename src) else dst in
  exists text m,
    files w !! src = Some (File text m) /\ r_ok m = true /\
    w' = mkWorld (<[target := File text m]> (files w)) (console w).
Proof.
  unfold copy, bind, get_files, put_files, raise. cbn [files console].
  destruct (files w !! src) as [[dm|text m]|]; try discriminate.
  destruct (String.eqb src _); [discriminate|].
  destruct (r_ok m) eqn:R; [|discriminate]. cbn [negb].
  set (target := if is_dir (files w) dst then _ else _).
  destruct (files w !! target) as [[dm|old tm]|].
  - discriminate.
  - destruct (w_ok tm); [|discriminate]. intros [= <-]. by exists text, m.
  - destruct (files w !! dirname target) as [[dm|? ?]|]; try discriminate.
    destruct (w_ok dm && x_ok dm); [|discriminate]. intros [= <-]. by exists text, m.
Qed.

(** A copy onto a writable file returns. *)
Lemma copy_run src dst w text m old tm :
  files w !! src = Some (File text m) ->
  r_ok m = true ->
  let target := if is_dir (files w) dst then join dst (basename src) else dst in
  src <> target ->
  files w !! target = Some (File old tm) ->
  w_ok tm = true ->
  copy src dst w = (Ok tt, mkWorld (<[target := File text m]> (files w)) (console w)).
Proof.
  intros Hsrc Hr target Hne Ht Hw.
  unfold copy, bind, get_files, put_files. cbn [files console]. rewrite Hsrc.
  fold target. apply String.eqb_neq in Hne. by rewrite Hne, Hr, Ht, Hw.
Qed.

(** Inside the binary directory a copy never lands on the directory itself. *)
Lemma copy_target_form bdir src : exists s, copy_target bdir src = BIN +:+ s.
Proof.
  unfold Script.copy_target. destruct bdir; [|exists ""; by rewrite append_nil_r].
  unfold BINARY_DIR. change "/.local/bin" with (String "/" ".local/bin").
  rewrite join_plain; [by eexists | done | apply basename_no_slash].
Qed.

Lemma copy_target_dir_ne src : copy_target true src <> BIN.
Proof.
  unfold Script.copy_target, BINARY_DIR. change "/.local/bin" with (String "/" ".local/bin").
  rewrite join_plain; [| done | apply basename_no_slash].
  intros H. apply (f_equal String.length) in H. rewrite !length_app in H.
  simpl in H. lia.
Qed.

Lemma copy_writes_files bdir found t v :
  In (t, v) (copy_writes bdir found) ->
  exists src bytes m, In (src, File bytes m) found /\ x_ok m = true /\
    t = copy_target bdir src /\ v = File bytes m.
Proof.
  induction found as [|[src n] found IH]; simpl; [done|].
  unfold Script.copy_writes. simpl.
  destruct n as [dm|bytes m]; simpl; [|destruct (x_ok m) eqn:X].
  - intros H. destruct (IH H) as (s & b & m' & ? & ? & ? & ?). exists s, b, m'. auto.
  - intros [[= <- <-]|H].
    + exists src, bytes, m. auto.
    + destruct (IH H) as (s & b & m' & ? & ? & ? & ?). exists s, b, m'. auto.
  - intros H. destruct (IH H) as (s & b & m' & ? & ? & ? & ?). exists s, b, m'. auto.
Qed.

(** The binary directory stays what it is while copies are written. *)
Lemma is_dir_after_writes bdir found (fs : gmap string node) :
  is_dir fs BIN = bdir ->
  is_dir (write_all (copy_writes bdir found) fs) BIN = bdir.
Proof.
  intros Hb. unfold is_dir. rewrite write_all_lookup.
  destruct (write_all (copy_writes bdir found) ∅ !! BIN) as [n|] eqn:E; [|exact Hb].
  apply write_all_keys, copy_writes_files in E as (src & bytes & m & _ & _ & Ht & ->).
  destruct bdir; [|done]. symmetry in Ht. by apply copy_target_dir_ne in Ht.
Qed.

(** What one copy of the walk leaves for the copies that follow. *)
Lemma after_copy bdir src n found (fs : gmap string node) bytes m :
  is_dir fs BIN = bdir ->
  (forall s n', In (s, n') ((src, n) :: found) -> fs !! s = Some n') ->
  (forall s n' s', In (s, n') ((src, n) :: found) -> copy_target bdir s' <> s) ->
  let fs' := <[copy_target bdir src := File bytes m]> fs in
  is_dir fs' BIN = bdir /\
  (forall s n', In (s, n') found -> fs' !! s = Some n') /\
  (forall s n' s', In (s, n') found -> copy_target bdir s' <> s).
Proof.
  intros Hb Hfound Hsep fs'. unfold fs', is_dir. repeat split.
  - destruct (decide (copy_target bdir src = BIN)) as [E|E].
    + rewrite E, lookup_insert_eq. destruct bdir; [|done].
      by apply copy_target_dir_ne in E.
    + by rewrite lookup_insert_ne.
  - intros s n' Hin. rewrite lookup_insert_ne; [apply Hfound; by right|].
    apply (Hsep s n' src). by right.
  - intros s n' s' Hin. apply (Hsep s n' s'). by right.
Qed.

Lemma copy_executables_skip src n found acc w :
  executable n = false ->
  copy_executables ((src, n) :: found) acc w = copy_executables found acc w.
Proof. destruct n as [dm|bytes m]; simpl; [done|]. by intros ->. Qed.

Lemma copy_writes_skip bdir src n found :
  executable n = false -> copy_writes bdir ((src, n) :: found) = copy_writes bdir found.
Proof. unfold Script.copy_writes. simpl. by intros ->. Qed.

Lemma executables_of_skip src n found :
  executable n = false -> executables_of ((src, n) :: found) = executables_of found.
Proof. unfold executables_of. simpl. by intros ->. Qed.

Lemma copy_writes_take bdir src bytes m found :
  x_ok m = true ->
  copy_writes bdir ((src, File bytes m) :: found) =
  (copy_target bdir src, File bytes m) :: copy_writes bdir found.
Proof. unfold Script.copy_writes. simpl. by intros ->. Qed.

Lemma executables_of_take src bytes m found :
  x_ok m = true ->
  executables_of ((src, File bytes m) :: found) = src :: executables_of found.
Proof. unfold executables_of. simpl. by intros ->. Qed.

(** A walk that returned has made the writes of [copy_writes], in order,
    and every file it copied could be read. *)
Lemma copy_executables_inv bdir found acc w res w' :
  is_dir (files w) BIN = bdir ->
  (forall s n, In (s, n) found -> files w !! s = Some n) ->
  (forall s n s', In (s, n) found -> copy_target bdir s' <> s) ->
  copy_executables found acc w = (Ok res, w') ->
  res = acc ++ executables_of found /\
  w' = mkWorld (write_all (copy_writes bdir found) (files w)) (console w) /\
  (forall s bytes m, In (s, File bytes m) found -> x_ok m = true -> r_ok m = true).
Proof.
  revert acc w. induction found as [|[src n] found IH]; intros acc w Hb Hfound Hsep Hrun.
  - simpl in Hrun. injection Hrun as <- <-.
    split; [by rewrite app_nil_r|]. split; [by destruct w | by intros s bytes m []].
  - destruct (executable n) eqn:X.
    + destruct n as [dm|bytes m]; [discriminate|]. simpl in X.
      simpl in Hrun. rewrite X in Hrun. unfold bind in Hrun.
      destruct (copy src BIN w) as [[[]|e] w1] eqn:C; [|discriminate].
      destruct (copy_inv _ _ _ _ C) as (text & m' & Hsrc & Hr & ->).
      rewrite (Hfound src (File bytes m)) in Hsrc by (by left).
      injection Hsrc as <- <-.
      rewrite Hb in Hrun. fold (copy_target bdir src) in Hrun.
      destruct (after_copy bdir src (File bytes m) found (files w) bytes m Hb Hfound Hsep)
        as (Hb' & Hfound' & Hsep').
      destruct (IH _ (mkWorld _ _) Hb' Hfound' Hsep' Hrun) as (-> & -> & Hread).
      split; [|split].
      * rewrite (executables_of_take _ _ _ _ X). by rewrite <- app_assoc.
      * by rewrite (copy_writes_take _ _ _ _ _ X).
      * intros s b m0 [[= -> -> ->]|Hin] Hx; [done|]. by apply (Hread s b m0).
    + rewrite (copy_executables_skip _ _ _ _ _ X) in Hrun.
      rewrite (copy_writes_skip _ _ _ _ X), (executables_of_skip _ _ _ X).
      destruct (IH acc w) as (-> & -> & Hread); try done.
      * intros s n' Hin. apply Hfound. by right.
      * intros s n' s' Hin. eapply Hsep. by right.
      * repeat split. intros s b m0 [[= -> ->]|Hin] Hx; [|by apply (Hread s b m0)].
        simpl in X. congruence.
Qed.

(** The walk returns when the files it copies can be read and every copy
    lands on a writable file: its copies are the writes of [copy_writes],
    in order. *)
Lemma copy_executables_ok bdir found acc w :
  is_dir (files w) BIN = bdir ->
  (forall s n, In (s, n) found -> files w !! s = Some n) ->
  (forall s n s', In (s, n) found -> copy_target bdir s' <> s) ->
  (forall s bytes m, In (s, File bytes m) found -> x_ok m = true ->
     r_ok m = true /\ w_ok m = true) ->
  (forall t v, In (t, v) (copy_writes bdir found) ->
     exists old tm, files w !! t = Some (File old tm) /\ w_ok tm = true) ->
  copy_executables found acc w =
  (Ok (acc ++ executables_of found),
   mkWorld (write_all (copy_writes bdir found) (files w)) (console w)).
Proof.
  revert acc w. induction found as [|[src n] found IH];
    intros acc w Hb Hfound Hsep Hmode Hdst.
  - simpl. by rewrite app_nil_r, world_eta.
  - destruct (executable n) eqn:X.
    + destruct n as [dm|bytes m]; [discriminate|]. simpl in X.
      destruct (Hmode src bytes m) as [Hr Hw]; [by left|done|].
      destruct (Hdst (copy_target bdir src) (File bytes m)) as (old & tm & Ht & Htw).
      { rewrite (copy_writes_take _ _ _ _ _ X). by left. }
      destruct (after_copy bdir src (File bytes m) found (files w) bytes m Hb Hfound Hsep)
        as (Hb' & Hfound' & Hsep').
      simpl. rewrite X. unfold bind.
      rewrite (copy_run src BIN w bytes m old tm); try done.
      * rewrite Hb. fold (copy_target bdir src).
        rewrite (IH (acc ++ [src])); cbn [files console]; try done.
        -- simpl. by rewrite <- app_assoc.
        -- intros s b m0 Hin. apply (Hmode s b m0). by right.
        -- intros t v Hin.
           destruct (decide (t = copy_target bdir src)) as [->|Hne].
           ++ rewrite lookup_insert_eq. by exists bytes, m.
           ++ rewrite lookup_insert_ne by done. apply (Hdst t v).
              rewrite (copy_writes_take _ _ _ _ _ X). by right.
      * apply Hfound. by left.
      * rewrite Hb. fold (copy_target bdir src). intros E.
        apply (Hsep src (File bytes m) src); [by left|done].
      * by rewrite Hb.
    + rewrite (copy_executables_skip _ _ _ _ _ X).
      rewrite (copy_writes_skip _ _ _ _ X), (executables_of_skip _ _ _ X).
      apply IH; try done.
      * intros s n' Hin. apply Hfound. by right.
      * intros s n' s' Hin. eapply Hsep. by right.
      * intros s b m0 Hin. apply (Hmode s b m0). by right.
      * intros t v Hin. apply (Hdst t v). by rewrite (copy_writes_skip _ _ _ _ X).
Qed.

(** [extract_archive] step by step, once its folder is made anew. *)
Lemma extract_archive_run filename folder ext w :
  splitext filename = (folder, ext) ->
  let fsb := <[folder := Dir]> (remove_tree folder (files w)) in
  let c1 := console w ++ [extracting filename folder] in
  fresh_folder folder w = (Ok tt, mkWorld fsb (console w)) ->
  extract_archive filename w =
  match archive_format_of filename with
  | None => (Ok tt, mkWorld fsb (c1 ++ [(Warn, "Unknown archive file type for " +:+ filename)]))
  | Some fmt =>
      match fsb !! filename with
      | Some (File bytes _) =>
          let fsc := write_members folder (decode fmt bytes).1 fsb in
          if (decode fmt bytes).2 then
            match copy_executables (walk_files folder fsc) [] (mkWorld fsc c1) with
            | (Ok execs, w2) => (Ok tt, say w2 (copied execs))
            | (Raise e, w2) => (Raise e, w2)
            end
          else (Raise CalledProcessError, mkWorld fsc c1)
      | _ => (Raise CalledProcessError, mkWorld fsb c1)
      end
  end.
Proof.
  intros Hsplit fsb c1 Hfresh.
  unfold Script.extract_archive. rewrite Hsplit. unfold bind at 1.
  rewrite Hfresh.
  unfold bind, info, emit, warn, run_decoder, get_files, put_files, raise, ret, bind.
  cbn [files console].
  fold (extracting filename folder). fold c1.
  destruct (archive_format_of filename) as [fmt|]; [|done].
  cbn [files console].
  destruct (fsb !! filename) as [[dm|bytes x]|]; try done.
  cbn [files console].
  destruct (decode fmt bytes).2; [|done].
  cbn [files console]. destruct (copy_executables _ _ _) as [[execs|e] w2]; [|done].
  unfold copied, say, ret. destruct execs; simpl; [|done].
  by rewrite app_nil_r, world_eta.
Qed.

Lemma fresh_again folder (fs : gmap string node) :
  <[folder := Dir]> (remove_tree folder (<[folder := Dir]> (remove_tree folder fs))) =
  <[folder := Dir]> (remove_tree folder fs).
Proof.
  apply map_eq. intros k. destruct (decide (folder = k)) as [->|Hne].
  - by rewrite !lookup_insert_eq.
  - rewrite !lookup_insert_ne by done.
    rewrite (remove_tree_lookup folder (<[folder:=Dir]> _)).
    destruct (within folder k) eqn:W.
    + by rewrite remove_tree_lookup, W.
    + by rewrite lookup_insert_ne.
Qed.

(** When no copy lands in the folder or on the archive, below the folder
    lie the members of the archive and nothing else after a run of
    [extract_archive] that returned; and when the members are unrestricted
    the run can be repeated: the second run prints the same lines and
    leaves every file as the first left it. *)
Lemma extract_archive_again filename folder ext w w1 :
  splitext filename = (folder, ext) ->
  no_orphans folder (files w) = true ->
  (forall bdir src, within folder (copy_target bdir src) = false) ->
  (forall bdir src, copy_target bdir src <> filename) ->
  extract_archive filename w = (Ok tt, w1) ->
  (forall k, below folder k = true ->
     files w1 !! k =
     write_members folder (archive_members decode filename (files w)) ∅ !! k) /\
  (forallb (fun member => unrestricted member.2) (archive_members decode filename (files w)) = true ->
   exists out,
     console w1 = console w ++ out /\
     extract_archive filename w1 = (Ok tt, say w1 out)).
Proof.
  intros Hsplit Hno Hout Hne Hrun.
  assert (fresh_folder folder w =
          (Ok tt, mkWorld (<[folder := Dir]> (remove_tree folder (files w))) (console w)))
    as Hfresh.
  { unfold Script.extract_archive in Hrun. rewrite Hsplit in Hrun.
    unfold bind at 1 in Hrun.
    destruct (fresh_folder folder w) as [[[]|e] wb] eqn:F; [|discriminate].
    by rewrite (fresh_folder_inv folder w wb Hno F). }
  rewrite (extract_archive_run _ _ _ _ Hsplit Hfresh) in Hrun.
  set (fsb := <[folder := Dir]> (remove_tree folder (files w))) in *.
  set (c1 := console w ++ [extracting filename folder]) in *.
  assert (fsb !! folder = Some Dir) as Hfolder by apply lookup_insert_eq.
  assert (forall fs k, below folder k = true ->
            <[folder := Dir]> (remove_tree folder fs) !! k = None) as Hempty.
  { intros fs k Hk. rewrite lookup_insert_ne.
    - by rewrite remove_tree_lookup, (below_within _ _ Hk).
    - intros <-. by rewrite below_irrefl in Hk. }
  destruct (archive_format_of filename) as [fmt|] eqn:Hfmt.
  2: { injection Hrun as <-. split.
       - intros k Hk. simpl. unfold fsb. rewrite (Hempty _ k Hk).
         unfold archive_members. by rewrite Hfmt.
       - intros _.
         exists [extracting filename folder;
                 (Warn, "Unknown archive file type for " +:+ filename)].
         split; [simpl; unfold c1; by rewrite <- app_assoc|].
         rewrite (extract_archive_run filename folder ext (mkWorld fsb _) Hsplit);
           cbn [files console].
         + rewrite Hfmt. unfold fsb. rewrite fresh_again. unfold say. cbn [files console].
           by rewrite <- !app_assoc.
         + apply (fresh_folder_again folder (mkWorld fsb _)); cbn [files]; [done|].
           intros k n W. unfold within in W. apply orb_true_iff in W as [W|W].
           * apply String.eqb_eq in W as <-. rewrite Hfolder. by intros [= <-].
           * unfold fsb. by rewrite (Hempty _ k W). }
  destruct (fsb !! filename) as [[dm|bytes x]|] eqn:Hfile; try discriminate.
  cbv zeta in Hrun.
  destruct (decode fmt bytes) as [ms good] eqn:Hdec. cbn [fst snd] in Hrun.
  destruct good; [|discriminate].
  set (fsc := write_members folder ms fsb) in *.
  set (found := walk_files folder fsc) in *.
  set (bdir := is_dir fsc BIN).
  destruct (copy_executables found [] (mkWorld fsc c1)) as [[execs|e] w2] eqn:Hcopy;
    [|discriminate].
  injection Hrun as <-.
  assert (forall s n, In (s, n) found -> fsc !! s = Some n /\ below folder s = true)
    as Hfound.
  { intros s n Hin. apply list_elem_of_In, elem_of_walk_files in Hin. tauto. }
  assert (forall s n s', In (s, n) found -> copy_target bdir s' <> s) as Hsep.
  { intros s n s' Hin E. destruct (Hfound s n Hin) as [_ Hb].
    apply below_within in Hb. rewrite <- E, Hout in Hb. discriminate. }
  destruct (copy_executables_inv bdir found [] (mkWorld fsc c1) execs w2 eq_refl
              (fun s n Hin => proj1 (Hfound s n Hin)) Hsep Hcopy) as (-> & -> & Hread).
  cbn [files console app] in *.
  set (fs1 := write_all (copy_writes bdir found) fsc) in *.
  assert (forall k, within folder k = true \/ k = filename -> fs1 !! k = fsc !! k) as Hkeep.
  { intros k Hk. unfold fs1. rewrite write_all_lookup.
    destruct (write_all (copy_writes bdir found) ∅ !! k) eqn:E; [|done].
    apply write_all_keys, copy_writes_files in E as (src & b & m & _ & _ & -> & _).
    destruct Hk as [Hk|Hk]; [rewrite Hout in Hk; discriminate|].
    by destruct (Hne bdir src). }
  assert (within folder filename = false) as Hnotin.
  { destruct (within folder filename) eqn:W; [|done].
    unfold within in W. apply orb_true_iff in W as [W|W].
    - apply String.eqb_eq in W as <-. congruence.
    - unfold fsb in Hfile. rewrite (Hempty _ _ W) in Hfile. discriminate. }
  assert (below folder filename = false) as Hnotbelow.
  { unfold within in Hnotin. by apply orb_false_iff in Hnotin as [_ ?]. }
  assert (folder <> filename) as Hneq.
  { intros E. by rewrite E, within_refl in Hnotin. }
  assert (fs1 !! folder = Some Dir) as Hfolder1.
  { rewrite Hkeep by (left; apply within_refl).
    unfold fsc. by rewrite write_members_outside by apply below_irrefl. }
  assert (files w !! filename = Some (File bytes x)) as Hfile0.
  { unfold fsb in Hfile.
    by rewrite lookup_insert_ne, remove_tree_lookup, Hnotin in Hfile. }
  assert (archive_members decode filename (files w) = ms) as Hms.
  { unfold archive_members. by rewrite Hfmt, Hfile0, Hdec. }
  assert (forall k, below folder k = true ->
            fsc !! k = write_members folder ms ∅ !! k) as Hbelow.
  { intros k Hk. unfold fsc. rewrite (write_members_lookup folder ms fsb k).
    unfold fsb. rewrite (Hempty _ k Hk).
    by destruct (write_members folder ms ∅ !! k). }
  split.
  { intros k Hk. cbn [files say].
    rewrite Hkeep by (left; by apply below_within). rewrite Hms. by apply Hbelow. }
  rewrite Hms. intros Hall.
  assert (forall k n, within folder k = true -> fs1 !! k = Some n -> unrestricted n = true)
    as Htree.
  { intros k n W. rewrite Hkeep by (by left).
    unfold within in W. apply orb_true_iff in W as [W|W].
    - apply String.eqb_eq in W as <-. rewrite <- Hkeep by (left; apply within_refl).
      rewrite Hfolder1. by intros [= <-].
    - rewrite (Hbelow k W). intros Hk. apply write_members_member in Hk as [rel Hin].
      rewrite forallb_forall in Hall. apply (Hall (rel, n) Hin). }
  exists (extracting filename folder :: copied (executables_of found)).
  split; [unfold say, c1; cbn [console]; by rewrite <- app_assoc|].
  rewrite (extract_archive_run filename folder ext _ Hsplit); cbn [files console say].
  2: { apply (fresh_folder_again folder (mkWorld fs1 _)); cbn [files]; done. }
  rewrite Hfmt.
  set (fsb' := <[folder := Dir]> (remove_tree folder fs1)).
  assert (fsb' !! filename = Some (File bytes x)) as ->.
  { unfold fsb'. rewrite lookup_insert_ne, remove_tree_lookup, Hnotin by done.
    rewrite Hkeep by (by right). unfold fsc.
    by rewrite write_members_outside. }
  rewrite Hdec. cbv zeta. cbn [fst snd].
  assert (write_members folder ms fsb' = fs1) as ->.
  { apply map_eq. intros k. rewrite (write_members_lookup folder ms fsb' k).
    destruct (below folder k) eqn:B.
    - rewrite (Hkeep k) by (left; by apply below_within).
      rewrite (Hbelow k B).
      destruct (write_members folder ms ∅ !! k); [done|].
      unfold fsb'. by rewrite Hempty.
    - destruct (write_members folder ms ∅ !! k) eqn:E.
      { apply write_members_keys in E. congruence. }
      unfold fsb'. destruct (decide (folder = k)) as [<-|Hk].
      + by rewrite lookup_insert_eq.
      + rewrite lookup_insert_ne, remove_tree_lookup by done.
        unfold within. rewrite B, orb_false_r.
        by destruct (String.eqb_spec folder k). }
  rewrite (walk_files_ext folder fs1 fsc) by (intros k Hk; apply Hkeep; by left).
  fold found.
  rewrite (copy_executables_ok bdir found [] (mkWorld fs1 _)); cbn [files console].
  - fold fs1. unfold fs1 at 1. rewrite write_all_twice. fold fs1.
    unfold say. cbn [files console app]. by rewrite <- !app_assoc.
  - by apply is_dir_after_writes.
  - intros s n Hin. destruct (Hfound s n Hin) as [Hs Hb].
    rewrite Hkeep; [done | left; by apply below_within].
  - done.
  - intros s b m Hin Hx. split; [by apply (Hread s b m)|].
    destruct (Hfound s _ Hin) as [Hs Hb].
    apply (Htree s (File b m)); [by apply below_within|].
    rewrite Hkeep; [done | left; by apply below_within].
  - intros t v Hin. unfold fs1. rewrite write_all_lookup.
    destruct (write_all_written _ _ _ Hin) as [n Hn]. rewrite Hn.
    apply write_all_keys, copy_writes_files in Hn as (src & b & m & Hsrc & Hx & _ & ->).
    exists b, m. split; [done|].
    destruct (Hfound src _ Hsrc) as [Hs Hb].
    apply (Htree src (File b m)); [by apply below_within|].
    rewrite Hkeep; [done | left; by apply below_within].
Qed.

(** Nothing in or below the binary directory lies in the download directory. *)
Lemma outside_downloads s s' : within (DOWNLOADS +:+ "/" +:+ s) (BIN +:+ s') = false.
Proof.
  unfold within, below, DOWNLOAD_DIR, BINARY_DIR.
  rewrite !append_assoc, eqb_app, startswith_app. reflexivity.
Qed.

Lemma archive_path url :
  join DOWNLOADS (basename url) = DOWNLOADS +:+ "/" +:+ basename url.
Proof.
  unfold DOWNLOAD_DIR.
  change "/Downloads/install-from-github" with (String "/" "Downloads/install-from-github").
  apply join_plain; [done | apply basename_no_slash].
Qed.


End Run.

End ExtractFacts.

(** ** Runs of the script on sample worlds *)

Module Runs.

Import Os Eff Selector Script Sample.

(** C8, at a catalog fetch answered with 404 for the first of two projects. *)
Lemma http_failure_skips_project_witness :
  let a := flags false ["a/b"; "c/d"] in
  let failure :=
    [(Info, "Downloading asset list for " +:+ "a/b" +:+ "...");
     (Error, "Failed to download " +:+ "a/b" +:+ ": " +:+
             NilZero.string_of_uint (Nat.to_uint 404))] in
  download_asset_list requests_404 "a/b" (cache_file home "a/b") false false empty =
    (Ok (Some false), say empty failure) /\
  files (say empty failure) = files empty /\
  for_each ["a/b"; "c/d"] (process_project home requests_404 json_load wget_ok decode_ok a) empty =
    for_each ["c/d"] (process_project home requests_404 json_load wget_ok decode_ok a)
      (say empty ((Header, "Processing " +:+ "a/b") :: failure)).
Proof.
  apply (ScriptFacts.http_failure_skips_project home requests_404 json_load wget_ok
           decode_ok (flags false ["a/b"; "c/d"]) "a/b" ["c/d"] empty
           (mkResponse 404 "Not Found"));
    [reflexivity | reflexivity | simpl; lia].
Defined.





(** C6. Dev mode with the catalog of [owner/tool] in the cache:
    [download_asset_list] returns [None] without fetching, [main] takes
    that for a failure, and the project is passed over after its header
    line: the catalog is not read and no asset is selected, although the
    cached catalog holds an asset the selector accepts. *)
Theorem dev_mode_cached_project_skipped :
  let a := flags true ["owner/tool"] in
  path_exists (files cached) (cache_file home "owner/tool") = true /\
  download_asset_list requests_200 "owner/tool" (cache_file home "owner/tool") false true cached =
    (Ok None, cached) /\
  process_project home requests_200 json_load wget_ok decode_ok a "owner/tool" cached =
    (Ok tt, say cached [(Header, "Processing owner/tool")]) /\
  console (main home requests_200 json_load wget_ok decode_ok a cached).2 =
    [(Header, "Processing owner/tool")] /\
  download_url_of false false catalog = Some "https://host/tool-linux-amd64.tar.gz" /\
  console (download_and_extract_archive home json_load wget_ok decode_ok "owner/tool"
             (cache_file home "owner/tool") false false true cached).2 =
    [(Info, "Filtering archives for owner/tool");
     (Info, "Downloading archive: https://host/tool-linux-amd64.tar.gz")].
Proof. vm_compute. repeat split; reflexivity. Qed.

(** C7. A project list file of one comment line and blank lines: the
    comment line is not blank, so it is kept, and what is left of it before
    the [#] is the empty string.  The resolved list is [[""]], not empty;
    [main] processes the empty identifier and exits with status 0.  Text
    before a trailing comment keeps its trailing blanks. *)
Theorem comment_only_file_resolves_to_empty_id :
  read_projects comment_only = [""] /\
  fst (resolve_projects home (flags false []) commented) = Ok [""] /\
  exit_status (main home requests_404 json_load wget_ok decode_ok (flags false []) commented).1 = 0 /\
  console (main home requests_404 json_load wget_ok decode_ok (flags false []) commented).2 =
    [(Header, "Processing ");
     (Info, "Downloading asset list for ...");
     (Error, "Failed to download : 404")] /\
  read_projects ("owner/tool  # comment" +:+ nl +:+ nl +:+ "foo/bar" +:+ nl) =
    ["owner/tool  "; "foo/bar"].
Proof. vm_compute. repeat split; reflexivity. Qed.



(** The first run on [staged]: the stale file is gone, [tool] is copied. *)
Example extraction_of_staged :
  let r := extract_archive home decode_ok archive staged in
  r.1 = Ok tt /\
  console r.2 =
    [(Info, "Extracting /home/u/Downloads/install-from-github/tool-linux-amd64.tar.gz into /home/u/Downloads/install-from-github/tool-linux-amd64.tar...");
     (Info, "Copied executables to /home/u/.local/bin: tool")] /\
  files r.2 !! "/home/u/.local/bin/tool" = Some (File "ELF" true) /\
  files r.2 !! "/home/u/.local/bin/README.md" = None /\
  files r.2 !! "/home/u/Downloads/install-from-github/tool-linux-amd64.tar/old" = None /\
  files r.2 !! "/home/u/Downloads/install-from-github/tool-linux-amd64.tar/bin/tool" =
    Some (File "ELF" true) /\
  extract_archive home decode_ok archive r.2 =
    (Ok tt, mkWorld (files r.2)
       (console r.2 ++
        [(Info, "Extracting /home/u/Downloads/install-from-github/tool-linux-amd64.tar.gz into /home/u/Downloads/install-from-github/tool-linux-amd64.tar...");
         (Info, "Copied executables to /home/u/.local/bin: tool")])).
Proof. vm_compute. repeat split; reflexivity. Qed.

End Runs.

(** ** More on the selector *)

Module SelectorLaws.

Import Str Selector StrFacts SelectorFacts.

Lemma select_find accept rejects prefer_musl appimage assets :
  select accept rejects prefer_musl appimage assets =
  match List.find (fun a => qualifies accept rejects (get name a "")) assets with
  | Some a =>
      if (prefer_musl && contains "musl" (get name a ""))
         || (appimage && contains "AppImage" (get name a ""))
         || (negb prefer_musl && negb appimage)
      then Some a else None
  | None => None
  end.
Proof.
  induction assets as [|a rest IH]; [reflexivity|].
  simpl. destruct (qualifies accept rejects (get name a "")); [|exact IH].
  destruct (prefer_musl && contains "musl" (get name a "")); [reflexivity|].
  destruct (appimage && contains "AppImage" (get name a "")); [reflexivity|].
  by destruct (negb prefer_musl && negb appimage).
Qed.

(** The selector looks at one asset only, the first that passes the accept
    and reject filters: it returns that asset when no flag is set or when
    the asset carries the marker of a flag that is set, and nothing
    otherwise.  No later asset is ever returned. *)
Theorem select_is_first_qualifier accept rejects prefer_musl appimage assets :
  select accept rejects prefer_musl appimage assets =
  match List.find (fun a => qualifies accept rejects (get name a "")) assets with
  | Some a =>
      if (prefer_musl && contains "musl" (get name a ""))
         || (appimage && contains "AppImage" (get name a ""))
         || (negb prefer_musl && negb appimage)
      then Some a else None
  | None => None
  end.
Proof. apply select_find. Qed.

(** A preference flag never changes which asset is selected, only whether
    one is: what is selected with flags is what is selected without them. *)
Theorem flags_only_withhold accept rejects prefer_musl appimage assets a :
  select accept rejects prefer_musl appimage assets = Some a ->
  select accept rejects false false assets = Some a.
Proof.
  rewrite !select_find.
  destruct (List.find _ assets) as [b|]; [|done].
  simpl. by destruct (_ || _ || _).
Qed.

Lemma flags_only_withhold_witness :
  select_default false false
    [asset "tool-x86_64-musl.tar.gz" "https://host/tool-x86_64-musl.tar.gz";
     asset "tool-x86_64.tar.gz" "https://host/tool-x86_64.tar.gz"] =
  Some (asset "tool-x86_64-musl.tar.gz" "https://host/tool-x86_64-musl.tar.gz").
Proof.
  apply (flags_only_withhold ACCEPT_FILTER default_rejects true false
           [asset "tool-x86_64-musl.tar.gz" "https://host/tool-x86_64-musl.tar.gz";
            asset "tool-x86_64.tar.gz" "https://host/tool-x86_64.tar.gz"]).
  reflexivity.
Defined.

(** An asset without a ["name"] key is read as the empty name, which holds
    no non-empty accept substring: such an asset is never selected. *)
Theorem nameless_asset_not_selected accept rejects prefer_musl appimage assets a :
  truthy accept = true ->
  select accept rejects prefer_musl appimage assets = Some a ->
  exists n, name a = Some n /\ contains accept n = true.
Proof.
  intros Hacc H. apply select_sound in H as [_ Hq].
  apply qualifies_spec in Hq as [Hc _]. unfold get in Hc. destruct (name a) as [n|]; [by exists n|].
  destruct accept; discriminate.
Qed.

Lemma nameless_asset_not_selected_witness :
  exists n,
    name (asset "tool-x86_64.tar.gz" "https://host/tool-x86_64.tar.gz") = Some n /\
    contains ACCEPT_FILTER n = true.
Proof.
  apply (nameless_asset_not_selected ACCEPT_FILTER default_rejects false false
           [mkAsset None (Some "https://host/nameless");
            asset "tool-x86_64.tar.gz" "https://host/tool-x86_64.tar.gz"]);
    reflexivity.
Defined.

Lemma contains_trans a b n :
  contains a b = true -> contains b n = true -> contains a n = true.
Proof.
  rewrite !contains_spec. intros (l1 & r1 & ->) (l2 & r2 & ->).
  exists (l2 +:+ l1), (r1 +:+ r2). by rewrite !append_assoc.
Qed.

(** The reject entries "macos" and "darwin" reject nothing that "mac" and
    "win" do not already reject: any name with "win" in it, "darwin"
    included, is rejected, and the default policy decides the same without
    the two longer entries. *)
Theorem default_rejects_redundant accept n :
  qualifies accept default_rejects n =
  qualifies accept
    ["mac"; "apple"; "win"; "bsd"; "arm"; "aarch"; "ppc"; "i686"; "sha256";
     "deb$"; "rpm$"; "apk$"; "sig$"; "proxy-linux"] n.
Proof.
  unfold qualifies. rewrite default_rejects_eq. simpl.
  pose proof (contains_trans "mac" "macos" n eq_refl) as Hmac.
  pose proof (contains_trans "win" "darwin" n eq_refl) as Hwin.
  destruct (contains "macos" n); [by rewrite Hmac|].
  destruct (contains "darwin" n); [rewrite Hwin by done; by rewrite !orb_true_r|].
  done.
Qed.

End SelectorLaws.

(** ** More on paths *)

Module PathLaws.

Import Str Os Script StrFacts OsFacts.

Lemma rsplit_None_tail c a s : rsplit c (String a s) = None -> rsplit c s = None.
Proof. simpl. by destruct (rsplit c s) as [[? ?]|]. Qed.

Lemma rsplit_None_suffix c a b : rsplit c (a +:+ b) = None -> rsplit c b = None.
Proof.
  induction a as [|x a IH]; [done|].
  rewrite append_cons. intros H. by apply IH, (rsplit_None_tail c x).
Qed.

Lemma rsplit_None_contains c s : rsplit c s = None -> contains (String c "") s = false.
Proof.
  induction s as [|a s IH]; [done|].
  intros H. pose proof (rsplit_None_tail _ _ _ H) as Ht.
  simpl in H. rewrite Ht in H. simpl.
  rewrite (IH Ht), (Ascii.eqb_sym c a).
  by destruct (Ascii.eqb a c).
Qed.

(** Splitting at the last [c] of a text that ends in a [c]-free tail. *)
Lemma rsplit_app_plain c p t :
  rsplit c t = None ->
  rsplit c (p +:+ t) =
  match rsplit c p with
  | Some (l, r) => Some (l, r +:+ t)
  | None => None
  end.
Proof.
  intros Ht. induction p as [|a p IH]; [by rewrite append_nil_l, Ht|].
  rewrite append_cons. simpl. rewrite IH.
  destruct (rsplit c p) as [[l r]|]; [done|].
  by destruct (Ascii.eqb a c).
Qed.

Lemma all_dots_app a b : all_dots (a +:+ b) = all_dots a && all_dots b.
Proof.
  induction a as [|x a IH]; [done|].
  rewrite append_cons. simpl. by rewrite IH, andb_assoc.
Qed.

Lemma splitext_rejoin p : (splitext p).1 +:+ (splitext p).2 = p.
Proof.
  unfold splitext.
  destruct (rsplit "/" p) as [[l r]|] eqn:E.
  - destruct (rsplit "." r) as [[stem e]|] eqn:F; [|apply append_nil_r].
    destruct (all_dots stem); [apply append_nil_r|].
    simpl. apply rsplit_spec in E, F. by rewrite E, F, !append_assoc.
  - destruct (rsplit "." p) as [[stem e]|] eqn:F; [|apply append_nil_r].
    destruct (all_dots stem); [apply append_nil_r|].
    simpl. apply rsplit_spec in F. by rewrite F.
Qed.

(** [os.path.splitext] loses nothing: root and extension put together give
    the path back; the extension is empty or a dot followed by text with
    neither a dot nor a slash. *)
Theorem splitext_parts p :
  (splitext p).1 +:+ (splitext p).2 = p /\
  ((splitext p).2 = "" \/
   exists e, (splitext p).2 = "." +:+ e /\
             rsplit "." e = None /\ rsplit "/" e = None).
Proof.
  unfold splitext.
  assert (exists head base, p = head +:+ base /\ rsplit "/" base = None /\
            match rsplit "/" p with
            | Some (l, r) => (l +:+ "/", r)
            | None => ("", p)
            end = (head, base)) as (head & base & Hp & Hbase & ->).
  { destruct (rsplit "/" p) as [[l r]|] eqn:E.
    - exists (l +:+ "/"), r. repeat split.
      + apply rsplit_spec in E. by rewrite append_assoc.
      + by apply rsplit_rest in E.
    - by exists "", p. }
  destruct (rsplit "." base) as [[stem e]|] eqn:E.
  2: { simpl. split; [apply append_nil_r | by left]. }
  destruct (all_dots stem).
  { simpl. split; [apply append_nil_r | by left]. }
  simpl. pose proof (rsplit_spec _ _ _ _ E) as Hb. split.
  - by rewrite append_assoc, Hp, Hb.
  - right. exists e. repeat split.
    + by apply rsplit_rest in E.
    + rewrite Hb in Hbase.
      by apply (rsplit_None_suffix "/" stem), (rsplit_None_tail "/" ".") in Hbase.
Qed.

(** The folder of a [.tar.gz] or [.tar.xz] archive keeps the [.tar]: only
    the last extension is removed, whatever precedes it. *)
Theorem tar_archive_folder p :
  splitext (p +:+ ".tar.gz") = (p +:+ ".tar", ".gz") /\
  archive_format_of (p +:+ ".tar.gz") = Some TarGz /\
  splitext (p +:+ ".tar.xz") = (p +:+ ".tar", ".xz") /\
  archive_format_of (p +:+ ".tar.xz") = Some TarXz.
Proof.
  assert (forall z, rsplit "." z = None -> rsplit "/" z = None ->
            splitext (p +:+ ".tar" +:+ "." +:+ z) = (p +:+ ".tar", "." +:+ z)) as H.
  { intros z Hz1 Hz2. unfold splitext.
    rewrite (rsplit_app_plain "/" p (".tar" +:+ "." +:+ z))
      by (change (".tar" +:+ "." +:+ z) with (".tar." +:+ z);
          by rewrite (rsplit_app_plain "/" ".tar." z)).
    destruct (rsplit "/" p) as [[l r]|] eqn:E.
    - rewrite <- append_assoc.
      change ("." +:+ z) with (String "." z).
      rewrite (rsplit_last "." (r +:+ ".tar") z Hz1), all_dots_app.
      replace (all_dots ".tar") with false by done. rewrite andb_false_r.
      apply rsplit_spec in E. rewrite E, !append_assoc. done.
    - rewrite <- append_assoc.
      change ("." +:+ z) with (String "." z).
      rewrite (rsplit_last "." (p +:+ ".tar") z Hz1), all_dots_app.
      replace (all_dots ".tar") with false by done. rewrite andb_false_r.
      done. }
  repeat split.
  - apply (H "gz"); reflexivity.
  - unfold archive_format_of.
    by rewrite (endswith_app ".tar.gz" p ".tar.gz") by (simpl; lia).
  - apply (H "xz"); reflexivity.
  - unfold archive_format_of.
    rewrite (endswith_app ".tar.gz" p ".tar.xz") by (simpl; lia).
    by rewrite (endswith_app ".tar.xz" p ".tar.xz") by (simpl; lia).
Qed.

(** [os.path.basename] returns the text after the last slash: it holds no
    slash, and the path is some directory part followed by it. *)
Theorem basename_parts p :
  contains "/" (basename p) = false /\
  exists d, p = d +:+ basename p /\ (d = "" \/ endswith "/" d = true).
Proof.
  split; [apply rsplit_None_contains, basename_no_slash|].
  unfold basename. destruct (rsplit "/" p) as [[l r]|] eqn:E.
  - exists (l +:+ "/"). split.
    + apply rsplit_spec in E. by rewrite append_assoc.
    + right. apply endswith_spec. by exists l.
  - exists "". by split; [|left].
Qed.

Section Home.

Variable home : string.

(** For a download URL whose last component is a proper file name (not
    empty, not [.] and not [..]), the path the script hands to the
    extraction names an entry directly in the download directory, under
    that last component. *)
Theorem archive_staged_in_downloads url :
  proper_name (basename url) = true ->
  let filename := join (DOWNLOAD_DIR home) (basename url) in
  filename = DOWNLOAD_DIR home +:+ "/" +:+ basename url /\
  below (DOWNLOAD_DIR home) filename = true /\
  basename filename = basename url /\
  dirname filename = DOWNLOAD_DIR home /\
  filename <> DOWNLOAD_DIR home +:+ "/".
Proof.
  intros Hproper filename.
  assert (filename = DOWNLOAD_DIR home +:+ "/" +:+ basename url) as E.
  { unfold filename, DOWNLOAD_DIR.
    change "/Downloads/install-from-github"
      with (String "/" "Downloads/install-from-github").
    apply join_plain; [done | apply basename_no_slash]. }
  split; [done|]. split; [|split; [|split]].
  - rewrite E. unfold below. apply startswith_spec.
    exists (basename url). by rewrite append_assoc.
  - rewrite E. unfold basename at 1.
    change ("/" +:+ basename url) with (String "/" (basename url)).
    by rewrite (rsplit_last "/" _ _ (basename_no_slash url)).
  - rewrite E. unfold DOWNLOAD_DIR.
    apply dirname_plain; [apply basename_no_slash | done..].
  - rewrite E. intros H. apply (f_equal String.length) in H.
    rewrite !length_app in H. simpl in H.
    destruct (basename url); [discriminate Hproper | simpl in H; lia].
Qed.

Lemma replace_no_slash p : rsplit "/" (replace "/" "_" p) = None.
Proof.
  induction p as [|a p IH]; [done|].
  simpl. rewrite IH. destruct (Ascii.eqb a "/") eqn:E; [done|]. by rewrite E.
Qed.

Lemma replace_again p : replace "/" "_" (replace "/" "_" p) = replace "/" "_" p.
Proof.
  induction p as [|a p IH]; [done|].
  simpl. rewrite IH. destruct (Ascii.eqb a "/") eqn:E; [done|]. by rewrite E.
Qed.

(** The cache file of a project lies directly in the cache directory,
    named after the project with its slashes turned into underscores; so
    a project and its underscored spelling ([owner/tool] and [owner_tool])
    share one cache file. *)
Theorem cache_file_flat project :
  cache_file home project =
    CACHE_DIR home +:+ "/" +:+ replace "/" "_" project +:+ "_assets.json" /\
  contains "/" (basename (cache_file home project)) = false /\
  basename (cache_file home project) = replace "/" "_" project +:+ "_assets.json" /\
  cache_file home (replace "/" "_" project) = cache_file home project.
Proof.
  assert (rsplit "/" (replace "/" "_" project +:+ "_assets.json") = None) as Hn.
  { by rewrite (rsplit_app_plain "/" _ "_assets.json"), replace_no_slash. }
  assert (cache_file home project =
          CACHE_DIR home +:+ "/" +:+ replace "/" "_" project +:+ "_assets.json") as E.
  { unfold cache_file, CACHE_DIR.
    change "/.cache/install-from-github" with (String "/" ".cache/install-from-github").
    by apply join_plain. }
  repeat split; [done | | |].
  - apply rsplit_None_contains, basename_no_slash.
  - rewrite E. unfold basename.
    change ("/" +:+ replace "/" "_" project +:+ "_assets.json")
      with (String "/" (replace "/" "_" project +:+ "_assets.json")).
    by rewrite (rsplit_last "/" _ _ Hn).
  - unfold cache_file. by rewrite replace_again.
Qed.

End Home.

End PathLaws.

(** ** More on the catalog step and the loop of [main] *)

Module ScriptLaws.

Import Str Os Eff Selector Script StrFacts OsFacts ScriptFacts.

Section Run.

Variable home : string.
Variable requests_get : string -> result response.
Variable json_load : string -> option release.
Variable wget : string -> gmap string node -> option (gmap string node).
Variable decode : archive_format -> string -> list (string * node) * bool.

Abbreviation download_asset_list := (download_asset_list requests_get).
Abbreviation download_and_extract_archive :=
  (download_and_extract_archive home json_load wget decode).
Abbreviation process_project := (process_project home requests_get json_load wget decode).
Abbreviation main := (main home requests_get json_load wget decode).
Abbreviation cache_file := (cache_file home).

Lemma can_rewrite_not_dir (fs : gmap string node) p :
  can_rewrite fs p = true -> is_dir fs p = false.
Proof.
  unfold can_rewrite, is_dir. intros H. apply andb_true_iff in H as [_ H].
  by destruct (fs !! p) as [[dm|text m]|].
Qed.

(** A catalog fetch answered with status 200 stores the body as it came,
    when the cache file can be written and read again (its directory is
    there and admits new entries, a file already there may be read and
    written) and the body is ASCII text with no carriage return (a read in
    text mode would hand that over as a line feed): reading the cache file
    afterwards gives the response text back, no other path changes, and
    the body is echoed exactly when [verbose] is set. *)
Theorem catalog_written_verbatim project filename verbose dev_mode w resp :
  dev_mode && path_exists (files w) filename = false ->
  requests_get (api_url project) = Ok resp ->
  status_code resp = 200 ->
  can_rewrite (files w) filename = true ->
  text_mode_safe (text resp) = true ->
  let r := download_asset_list project filename verbose dev_mode w in
  r.1 = Ok (Some true) /\
  read_text filename r.2 = (Ok (text resp), r.2) /\
  (forall k, k <> filename -> files r.2 !! k = files w !! k) /\
  console r.2 =
    console w ++ (Info, "Downloading asset list for " +:+ project +:+ "...") ::
                 (if verbose then [(Plain, text resp)] else []).
Proof.
  intros Hdev Hget Hst Hcan _ r. unfold r.
  rewrite (download_asset_list_ok _ _ _ _ _ _ resp Hdev Hget Hst
             (can_rewrite_not_dir _ _ Hcan)).
  cbn [fst snd files console]. repeat split.
  - unfold read_text, bind, get_files, ret. cbn [files].
    unfold written. by rewrite lookup_insert_eq.
  - intros k Hk. unfold written. by rewrite lookup_insert_ne.
Qed.

(** A catalog fetch that raises (no network, say) is caught inside
    [download_asset_list]: the project is reported and passed over, no file
    changes, and the loop goes on with the remaining projects. *)
Theorem transport_failure_skips_project a project rest w e :
  dev a && path_exists (files w) (cache_file project) = false ->
  requests_get (api_url project) = Raise e ->
  is_Exception e = true ->
  for_each (project :: rest) (process_project a) w =
  for_each rest (process_project a)
    (say w [(Header, "Processing " +:+ project);
            (Info, "Downloading asset list for " +:+ project +:+ "...");
            (Error, "Download failed: " +:+ exn_str e)]).
Proof.
  intros Hdev Hget He. rewrite for_each_cons.
  rewrite (process_project_skipped home requests_get json_load wget decode
             a project w (Some false)
             (say w [(Header, "Processing " +:+ project);
                     (Info, "Downloading asset list for " +:+ project +:+ "...");
                     (Error, "Download failed: " +:+ exn_str e)])); [done | | done].
  rewrite (download_asset_list_raised _ _ _ _ _ _ e); try done.
  by rewrite say_say.
Qed.

(** When the scan leaves no usable URL (no asset passes, the ["assets"]
    key is missing or empty, or the chosen asset has an empty or missing
    URL), [download_and_extract_archive] only warns: it returns, and no
    file changes, in dev mode or not. *)
Theorem no_match_only_warns project filename pm ai dev_mode w doc x rel :
  files w !! filename = Some (File doc x) ->
  json_load doc = Some rel ->
  url_truthy (download_url_of pm ai (assets_of rel)) = false ->
  download_and_extract_archive project filename pm ai dev_mode w =
  (Ok tt, say w [(Info, "Filtering archives for " +:+ project);
                 (Warn, "No matching archives found for " +:+ project)]).
Proof.
  intros Hf Hj Hu.
  unfold Script.download_and_extract_archive, bind, info, warn, emit, read_text,
    get_files, bind, get_files, ret, say.
  cbn [files console]. rewrite Hf. cbn [files console]. rewrite Hj.
  unfold url_truthy in Hu.
  destruct (download_url_of pm ai (assets_of rel)) as [url|].
  - rewrite Hu. cbn [files console]. by rewrite <- app_assoc.
  - cbn [files console]. by rewrite <- app_assoc.
Qed.

(** In dev mode [download_and_extract_archive] names the archive it would
    fetch and stops there: the transfer tool and the decoder are not run
    and no file changes. *)
Theorem dev_mode_transfers_nothing project filename pm ai w doc x rel url :
  files w !! filename = Some (File doc x) ->
  json_load doc = Some rel ->
  download_url_of pm ai (assets_of rel) = Some url ->
  Str.truthy url = true ->
  download_and_extract_archive project filename pm ai true w =
  (Ok tt, say w [(Info, "Filtering archives for " +:+ project);
                 (Info, "Downloading archive: " +:+ url)]).
Proof.
  intros Hf Hj Hu Ht.
  unfold Script.download_and_extract_archive, bind, info, warn, emit, read_text,
    get_files, bind, get_files, ret, say.
  cbn [files console]. rewrite Hf. cbn [files console]. rewrite Hj, Hu, Ht.
  cbn [files console negb]. by rewrite <- app_assoc.
Qed.


Lemma makedirs_run d w :
  (forall bytes x, files w !! d <> Some (File bytes x)) ->
  exists fs',
    makedirs d w = (Ok tt, mkWorld fs' (console w)) /\
    is_dir fs' d = true /\
    forall k, k <> d -> fs' !! k = files w !! k.
Proof.
  intros Hnf. unfold makedirs, bind, get_files, put_files, ret, raise, is_dir.
  destruct (files w !! d) as [[dm|bytes x]|] eqn:E.
  - exists (files w). rewrite E. by destruct w.
  - by destruct (Hnf bytes x).
  - exists (<[d := Dir]> (files w)). repeat split.
    + by rewrite lookup_insert_eq.
    + intros k Hk. by rewrite lookup_insert_ne.
Qed.

Lemma can_make_dir_not_file (fs : gmap string node) d bytes x :
  can_make_dir fs d = true -> fs !! d <> Some (File bytes x).
Proof.
  unfold can_make_dir. intros H E. rewrite E in H.
  by rewrite andb_false_r in H.
Qed.

Lemma user_projects_path :
  USER_PROJECTS home = CONFIG_DIR home +:+ "/" +:+ "projects.txt".
Proof.
  unfold USER_PROJECTS, CONFIG_DIR.
  change "/.config/install-from-github" with (String "/" ".config/install-from-github").
  by apply join_plain.
Qed.

Lemma user_projects_apart :
  USER_PROJECTS home <> DOWNLOAD_DIR home /\
  USER_PROJECTS home <> CACHE_DIR home /\
  USER_PROJECTS home <> CONFIG_DIR home.
Proof.
  rewrite user_projects_path.
  unfold DOWNLOAD_DIR, CACHE_DIR, CONFIG_DIR.
  repeat split; apply String.eqb_neq; rewrite append_assoc, eqb_app; reflexivity.
Qed.

(** With no project on the command line and no project list file, in a
    home where each of the three directories of the script is there
    already or can be made in a directory that is there, [main] makes the
    three directories, reports that there is nothing to install and exits
    with status 1; no other path is touched. *)
Theorem nothing_to_install a w :
  projects a = [] ->
  (forall d, In d [DOWNLOAD_DIR home; CACHE_DIR home; CONFIG_DIR home] ->
     can_make_dir (files w) d = true) ->
  files w !! USER_PROJECTS home = None ->
  let r := main a w in
  r.1 = Raise (SystemExit 1) /\
  exit_status r.1 = 1 /\
  console r.2 = console w ++ [(Error, "No projects to install.")] /\
  (forall d, In d [DOWNLOAD_DIR home; CACHE_DIR home; CONFIG_DIR home] ->
     is_dir (files r.2) d = true) /\
  (forall k, ~ In k [DOWNLOAD_DIR home; CACHE_DIR home; CONFIG_DIR home] ->
     files r.2 !! k = files w !! k).
Proof.
  intros Hps Hmake Hnone r.
  assert (forall d, In d [DOWNLOAD_DIR home; CACHE_DIR home; CONFIG_DIR home] ->
            forall bytes x, files w !! d <> Some (File bytes x)) as Hdirs.
  { intros d Hd bytes x. by apply can_make_dir_not_file, Hmake. }
  destruct user_projects_apart as (U1 & U2 & U3).
  destruct (makedirs_run (DOWNLOAD_DIR home) w) as (fs1 & E1 & D1 & K1).
  { apply Hdirs. simpl. auto. }
  destruct (makedirs_run (CACHE_DIR home) (mkWorld fs1 (console w))) as (fs2 & E2 & D2 & K2).
  { cbn [files]. intros bytes x.
    destruct (decide (CACHE_DIR home = DOWNLOAD_DIR home)) as [->|Hne].
    - unfold is_dir in D1. intros E. by rewrite E in D1.
    - rewrite K1 by done. apply Hdirs. simpl. auto. }
  destruct (makedirs_run (CONFIG_DIR home) (mkWorld fs2 (console w))) as (fs3 & E3 & D3 & K3).
  { cbn [files]. intros bytes x.
    destruct (decide (CONFIG_DIR home = CACHE_DIR home)) as [->|Hne].
    { unfold is_dir in D2. intros E. by rewrite E in D2. }
    rewrite K2 by done. cbn [files].
    destruct (decide (CONFIG_DIR home = DOWNLOAD_DIR home)) as [->|Hne'].
    { unfold is_dir in D1. intros E. by rewrite E in D1. }
    rewrite K1 by done. apply Hdirs. simpl. auto. }
  cbn [files console] in *.
  assert (main a w =
          (Raise (SystemExit 1),
           mkWorld fs3 (console w ++ [(Error, "No projects to install.")]))) as Hmain.
  { unfold Script.main, bind. rewrite E1, E2, E3.
    unfold resolve_projects. rewrite Hps.
    unfold bind, get_files, ret, path_exists. cbn [files].
    rewrite K3, K2, K1, Hnone by done. reflexivity. }
  unfold r. rewrite Hmain. cbn [fst snd files console]. repeat split.
  - intros d [<-|[<-|[<-|[]]]]; unfold is_dir in *.
    + destruct (decide (DOWNLOAD_DIR home = CONFIG_DIR home)) as [->|N3]; [done|].
      rewrite K3 by done.
      destruct (decide (DOWNLOAD_DIR home = CACHE_DIR home)) as [->|N2]; [done|].
      by rewrite K2.
    + destruct (decide (CACHE_DIR home = CONFIG_DIR home)) as [->|N3]; [done|].
      by rewrite K3.
    + done.
  - intros k Hk. rewrite K3, K2, K1; [done | | |]; intros ->; apply Hk; simpl; auto.
Qed.

Lemma dev_mode_keeps_files project filename pm ai w w' :
  download_and_extract_archive project filename pm ai true w = (Ok tt, w') ->
  files w' = files w.
Proof.
  unfold Script.download_and_extract_archive, bind, info, warn, emit, read_text,
    get_files, bind, get_files, ret, raise.
  cbn [files console].
  destruct (files w !! filename) as [[dm|doc x]|]; try discriminate.
  cbn [files console]. destruct (json_load doc) as [rel|]; [|discriminate].
  destruct (download_url_of pm ai (assets_of rel)) as [url|].
  - destruct (Str.truthy url); cbn [files console negb]; by intros [= <-].
  - by intros [= <-].
Qed.



End Run.

End ScriptLaws.

(** ** More on extraction *)

Module ExtractLaws.

Import Str Os Eff Script StrFacts OsFacts FsFacts ExtractFacts.

Section Run.

Variable home : string.
Variable decode : archive_format -> string -> list (string * node) * bool.

Abbreviation BIN := (BINARY_DIR home).
Abbreviation DOWNLOADS := (DOWNLOAD_DIR home).
Abbreviation copy_target := (copy_target home).
Abbreviation copy_writes := (copy_writes home).
Abbreviation extract_archive := (extract_archive home decode).

(** An archive that is there and whose name has no extension (a bare
    binary such as [tool-linux-amd64]) is its own folder:
    [extract_archive] calls [shutil.rmtree] on the file, which raises, and
    nothing is changed or printed. *)
Theorem archive_without_extension_raises filename w bytes x :
  (splitext filename).2 = "" ->
  files w !! filename = Some (File bytes x) ->
  extract_archive filename w = (Raise NotADirectoryError, w).
Proof.
  intros Hext Hfile.
  pose proof (PathLaws.splitext_rejoin filename) as Hparts.
  rewrite Hext, append_nil_r in Hparts.
  unfold Script.extract_archive.
  destruct (splitext filename) as [folder ext]. cbn [fst snd] in *. subst folder.
  unfold bind at 1.
  unfold fresh_folder, bind, get_files, rmtree, raise, bind, get_files, path_exists.
  rewrite Hfile. cbn. by rewrite Hfile.
Qed.

(** On a folder that can be remade [fresh_folder] returns. *)
Lemma fresh_folder_remake folder w :
  no_orphans folder (files w) = true ->
  can_remake (files w) folder = true ->
  fresh_folder folder w =
  (Ok tt, mkWorld (<[folder := Dir]> (remove_tree folder (files w))) (console w)).
Proof.
  intros Hno Hcan. rewrite (fresh_folder_run folder w Hno).
  unfold can_remake in Hcan.
  apply andb_true_iff in Hcan as [Hcan Hlock]. apply andb_true_iff in Hcan as [_ Hfile].
  apply negb_true_iff in Hlock. rewrite Hlock.
  by destruct (files w !! folder) as [[dm|bytes x]|].
Qed.

(** An archive with an unrecognised suffix is not unpacked, but its folder
    is made all the same.  For an archive in the download directory under
    a proper file name, when the folder can be remade: whatever was at the
    folder is gone, an empty directory is there, a warning is printed, and
    every path outside the folder is as before. *)
Theorem unknown_suffix_leaves_empty_folder url w :
  let filename := join DOWNLOADS (basename url) in
  let folder := (splitext filename).1 in
  proper_name (basename url) = true ->
  archive_format_of filename = None ->
  no_orphans folder (files w) = true ->
  can_remake (files w) folder = true ->
  let r := extract_archive filename w in
  r.1 = Ok tt /\
  console r.2 =
    console w ++ [extracting filename folder;
                  (Warn, "Unknown archive file type for " +:+ filename)] /\
  files r.2 !! folder = Some Dir /\
  (forall k, below folder k = true -> files r.2 !! k = None) /\
  (forall k, within folder k = false -> files r.2 !! k = files w !! k).
Proof.
  intros filename folder _ Hfmt Hno Hcan r. unfold r.
  rewrite (extract_archive_run home decode filename folder (splitext filename).2 w);
    [| unfold folder; by destruct (splitext filename) | by apply fresh_folder_remake].
  rewrite Hfmt. cbn [fst snd files console]. repeat split.
  - by rewrite <- app_assoc.
  - apply lookup_insert_eq.
  - intros k Hk. rewrite lookup_insert_ne.
    + by rewrite remove_tree_lookup, (below_within _ _ Hk).
    + intros <-. by rewrite below_irrefl in Hk.
  - intros k Hk. rewrite lookup_insert_ne.
    + by rewrite remove_tree_lookup, Hk.
    + intros <-. by rewrite within_refl in Hk.
Qed.

Lemma copy_writes_intro bdir found src bytes m :
  In (src, File bytes m) found ->
  x_ok m = true ->
  In (copy_target bdir src, File bytes m) (copy_writes bdir found).
Proof.
  intros Hin Hx. induction found as [|[s n] found IH]; [done|].
  destruct (executable n) eqn:X.
  - destruct n as [dm|b m']; [discriminate|]. simpl in X.
    rewrite (copy_writes_take home _ _ _ _ _ X).
    destruct Hin as [[= -> -> ->]|Hin]; [by left | right; by apply IH].
  - rewrite (copy_writes_skip home _ _ _ _ X).
    destruct Hin as [[= -> ->]|Hin]; [|by apply IH].
    simpl in X. congruence.
Qed.

(** The files a run of [extract_archive] that returned leaves, when no
    copy lands in the folder: the new folder with the archive's members,
    and over it the copies of the executables found there. *)
Lemma extract_archive_files filename folder ext w w1 :
  splitext filename = (folder, ext) ->
  no_orphans folder (files w) = true ->
  (forall bdir src, within folder (copy_target bdir src) = false) ->
  extract_archive filename w = (Ok tt, w1) ->
  let fsc := write_members folder (archive_members decode filename (files w))
               (<[folder := Dir]> (remove_tree folder (files w))) in
  files w1 =
  match archive_format_of filename with
  | Some _ => write_all (copy_writes (is_dir (files w) BIN) (walk_files folder fsc)) fsc
  | None => fsc
  end.
Proof.
  intros Hsplit Hno Hout Hrun.
  assert (fresh_folder folder w =
          (Ok tt, mkWorld (<[folder := Dir]> (remove_tree folder (files w))) (console w)))
    as Hfresh.
  { unfold Script.extract_archive in Hrun. rewrite Hsplit in Hrun.
    unfold bind at 1 in Hrun.
    destruct (fresh_folder folder w) as [[[]|e] wb] eqn:F; [|discriminate].
    by rewrite (fresh_folder_inv folder w wb Hno F). }
  rewrite (extract_archive_run _ _ _ _ _ _ Hsplit Hfresh) in Hrun.
  unfold archive_members.
  set (fsb := <[folder := Dir]> (remove_tree folder (files w))) in *.
  destruct (archive_format_of filename) as [fmt|] eqn:Hfmt.
  2: { by injection Hrun as <-. }
  destruct (fsb !! filename) as [[dm|bytes x]|] eqn:Hfile; try discriminate.
  cbv zeta in Hrun.
  destruct (decode fmt bytes) as [ms good] eqn:Hdec. cbn [fst snd] in Hrun.
  destruct good; [|discriminate].
  assert (within folder filename = false) as Hnotin.
  { destruct (within folder filename) eqn:W; [|done].
    unfold within in W. apply orb_true_iff in W as [W|W].
    - apply String.eqb_eq in W as <-. unfold fsb in Hfile.
      rewrite lookup_insert_eq in Hfile. discriminate.
    - unfold fsb in Hfile. rewrite lookup_insert_ne in Hfile.
      + rewrite remove_tree_lookup, (below_within _ _ W) in Hfile. discriminate.
      + intros <-. by rewrite below_irrefl in W. }
  assert (files w !! filename = Some (File bytes x)) as ->.
  { unfold fsb in Hfile. rewrite lookup_insert_ne, remove_tree_lookup, Hnotin in Hfile;
      [done|]. intros <-. by rewrite within_refl in Hnotin. }
  rewrite Hdec. cbn [fst].
  set (fsc := write_members folder ms fsb) in *.
  set (found := walk_files folder fsc) in *.
  assert (is_dir fsc BIN = is_dir (files w) BIN) as Hbin.
  { pose proof (Hout false "") as Hb. change (within folder BIN = false) in Hb.
    unfold is_dir, fsc. rewrite write_members_outside.
    - unfold fsb. rewrite lookup_insert_ne, remove_tree_lookup, Hb; [done|].
      intros E. by rewrite E, within_refl in Hb.
    - unfold within in Hb. by apply orb_false_iff in Hb as [_ ?]. }
  set (bdir := is_dir (files w) BIN) in *.
  destruct (Script.copy_executables home found [] (mkWorld fsc _)) as [[execs|e] w2] eqn:Hcopy;
    [|discriminate].
  injection Hrun as <-.
  assert (forall s n, In (s, n) found -> fsc !! s = Some n /\ below folder s = true)
    as Hfound.
  { intros s n Hin. apply list_elem_of_In, elem_of_walk_files in Hin. tauto. }
  assert (forall s n s', In (s, n) found -> copy_target bdir s' <> s) as Hsep.
  { intros s n s' Hin E. destruct (Hfound s n Hin) as [_ Hb].
    apply below_within in Hb. rewrite <- E, Hout in Hb. discriminate. }
  by destruct (copy_executables_inv home bdir found [] (mkWorld fsc _) execs w2 Hbin
                 (fun s n Hin => proj1 (Hfound s n Hin)) Hsep Hcopy) as (_ & -> & _).
Qed.


(** When the archive is missing or the decoder exits with a non-zero
    status, [extract_archive] raises [CalledProcessError] after it has
    remade the folder.  For an archive of a known kind in the download
    directory under a proper file name, when the folder can be remade:
    what an earlier extraction left there is gone, below the folder lies
    what the decoder had unpacked when it stopped and nothing else,
    nothing is copied, and every path outside the folder is as before. *)
Theorem decoder_failure_leaves_partial_folder url fmt w :
  let filename := join DOWNLOADS (basename url) in
  let folder := (splitext filename).1 in
  proper_name (basename url) = true ->
  archive_format_of filename = Some fmt ->
  no_orphans folder (files w) = true ->
  can_remake (files w) folder = true ->
  within folder filename = false ->
  (files w !! filename = None \/
   exists bytes x, files w !! filename = Some (File bytes x) /\
                   (decode fmt bytes).2 = false) ->
  let r := extract_archive filename w in
  r.1 = Raise CalledProcessError /\
  console r.2 = console w ++ [extracting filename folder] /\
  files r.2 !! folder = Some Dir /\
  (forall k, below folder k = true ->
     files r.2 !! k =
     write_members folder (archive_members decode filename (files w)) ∅ !! k) /\
  (forall k, within folder k = false -> files r.2 !! k = files w !! k).
Proof.
  intros filename folder _ Hfmt Hno Hcan Hout Hfail r. unfold r.
  rewrite (extract_archive_run home decode filename folder (splitext filename).2 w);
    [| unfold folder; by destruct (splitext filename) | by apply fresh_folder_remake].
  rewrite Hfmt. unfold archive_members. rewrite Hfmt.
  set (fsb := <[folder := Dir]> (remove_tree folder (files w))).
  assert (fsb !! filename = files w !! filename) as ->.
  { unfold fsb. rewrite lookup_insert_ne, remove_tree_lookup, Hout; [done|].
    intros E. by rewrite E, within_refl in Hout. }
  assert (fsb !! folder = Some Dir) as Hfolder by apply lookup_insert_eq.
  assert (forall k, below folder k = true -> fsb !! k = None) as Hbelow.
  { intros k Hk. unfold fsb. rewrite lookup_insert_ne.
    - by rewrite remove_tree_lookup, (below_within _ _ Hk).
    - intros <-. by rewrite below_irrefl in Hk. }
  assert (forall k, within folder k = false -> fsb !! k = files w !! k) as Hrest.
  { intros k Hk. unfold fsb. rewrite lookup_insert_ne.
    - by rewrite remove_tree_lookup, Hk.
    - intros <-. by rewrite within_refl in Hk. }
  destruct Hfail as [->|(bytes & x & -> & Hbad)].
  - cbn [fst snd files console]. split; [done|]. split; [done|]. split; [done|].
    split; [|done]. intros k Hk. unfold write_members. simpl.
    by rewrite Hbelow, lookup_empty.
  - cbv zeta. rewrite Hbad. cbn [fst snd files console]. repeat split.
    + by rewrite write_members_outside by apply below_irrefl.
    + intros k Hk. rewrite (write_members_lookup folder _ fsb k), (Hbelow k Hk).
      by destruct (write_members folder (decode fmt bytes).1 ∅ !! k).
    + intros k Hk. rewrite write_members_outside; [by apply Hrest|].
      unfold within in Hk. by apply orb_false_iff in Hk as [_ ?].
Qed.

End Run.

End ExtractLaws.

(** ** The project list file and the helpers *)

Module ProjectListLaws.

Import Str Os Script ProjectList StrFacts.

Lemma before_first_clean sep s : contains (String sep "") (before_first sep s) = false.
Proof.
  induction s as [|c s IH]; [done|].
  simpl. destruct (Ascii.eqb c sep) eqn:E; [done|].
  simpl. by rewrite IH, (Ascii.eqb_sym sep c), E.
Qed.

Lemma lstrip_head s : lstrip s = "" \/ exists c t, lstrip s = String c t /\ is_space c = false.
Proof.
  induction s as [|c s IH]; [by left|].
  simpl. destruct (is_space c) eqn:E; [done|]. right. by exists c, s.
Qed.

Lemma rstrip_head c t : is_space c = false -> exists t', rstrip (String c t) = String c t'.
Proof.
  intros Hc. simpl. destruct (rstrip t); [|by eexists].
  rewrite Hc. by eexists.
Qed.

(** Every identifier read from the project list file is free of [#] and
    starts with no blank (it may be empty, and it may end in blanks). *)
Theorem resolved_ids_shape text p :
  In p (read_projects text) ->
  contains "#" p = false /\ lstrip p = p.
Proof.
  unfold read_projects. intros Hin.
  apply in_map_iff in Hin as (line & <- & _).
  split; [apply before_first_clean|].
  unfold strip. destruct (lstrip_head line) as [->|(c & t & -> & Hc)]; [done|].
  destruct (rstrip_head c t Hc) as [t' ->].
  simpl. destruct (Ascii.eqb c "#"); [done|]. simpl. by rewrite Hc.
Qed.

Lemma resolved_ids_shape_witness :
  contains "#" "owner/tool " = false /\ lstrip "owner/tool " = "owner/tool ".
Proof.
  apply (resolved_ids_shape ("  owner/tool # the tool" +:+ nl)).
  vm_compute. by left.
Defined.

Lemma rstrip_nl s : rstrip (s +:+ nl) = rstrip s.
Proof.
  induction s as [|c s IH]; [done|].
  rewrite append_cons. simpl. by rewrite IH.
Qed.

Lemma rstrip_plain s d :
  last_char s = Some d -> is_space d = false -> rstrip s = s.
Proof.
  revert d. induction s as [|c s IH]; intros d; [done|].
  simpl. destruct (last_char s) as [e|] eqn:E.
  - intros [= ->] Hd. rewrite (IH d) by done. by destruct s.
  - intros [= ->] Hd. destruct s as [|? s]; [by rewrite Hd|].
    simpl in E. by destruct (last_char s).
Qed.

Lemma plain_char_spec a :
  plain_char a = true ->
  Ascii.eqb a "#" = false /\ Ascii.eqb a "010" = false /\ Ascii.eqb a "013" = false.
Proof.
  unfold plain_char. intros H.
  apply andb_true_iff in H as [H H3]. apply andb_true_iff in H as [H H2].
  apply andb_true_iff in H as [_ H1].
  by rewrite negb_true_iff in H1, H2, H3.
Qed.

Lemma lines_plain s rest :
  all_chars plain_char s = true ->
  lines (s +:+ nl +:+ rest) = (s +:+ nl) :: lines rest.
Proof.
  induction s as [|c s IH]; [done|].
  simpl. intros H. apply andb_true_iff in H as [Hc Hs].
  apply plain_char_spec in Hc as (_ & Hlf & Hcr).
  rewrite !append_cons. cbn [lines]. by rewrite Hlf, Hcr, (IH Hs).
Qed.

Lemma before_first_plain s :
  all_chars plain_char s = true ->
  before_first "#" s = s.
Proof.
  induction s as [|c s IH]; [done|].
  simpl. intros H. apply andb_true_iff in H as [Hc Hs].
  apply plain_char_spec in Hc as (Hc & _ & _).
  by rewrite Hc, (IH Hs).
Qed.

(** A project list file written with one plain identifier per line
    (ASCII, no blank at either end, no [#], no line feed and no carriage
    return in it) is read back as exactly those identifiers, in order. *)
Theorem read_projects_unlines ids :
  forallb plain_id ids = true ->
  read_projects (unlines ids) = ids.
Proof.
  induction ids as [|id ids IH]; [done|].
  simpl. intros H. apply andb_true_iff in H as [Hid Hids].
  unfold plain_id in Hid.
  destruct id as [|c t]; [done|].
  destruct (last_char (String c t)) as [d|] eqn:Hlast; [|done].
  apply andb_true_iff in Hid as [Hcd Hall].
  apply andb_true_iff in Hcd as [Hc Hd].
  apply negb_true_iff in Hc, Hd.
  unfold read_projects in *.
  rewrite (lines_plain (String c t) (unlines ids) Hall).
  assert (strip (String c t +:+ nl) = String c t) as Hstrip.
  { unfold strip. rewrite append_cons. simpl lstrip. rewrite Hc.
    rewrite <- append_cons, rstrip_nl. by apply (rstrip_plain _ d). }
  cbn [List.filter]. rewrite Hstrip. cbn [Str.truthy map].
  rewrite Hstrip, (before_first_plain _ Hall). f_equal. by apply IH.
Qed.

Lemma read_projects_unlines_witness :
  read_projects (unlines ["owner/tool"; "BurntSushi/ripgrep"]) =
  ["owner/tool"; "BurntSushi/ripgrep"].
Proof. apply read_projects_unlines. reflexivity. Defined.

(** [is_in_path] answers [True] for any text that occurs somewhere in the
    variable, a part of an entry included (it is not compared with the
    entries between the colons), and only for such text. *)
Theorem is_in_path_substring environ path directory :
  environ !! "PATH" = Some path ->
  (Helpers.is_in_path environ directory = Some true <->
   exists before after, path = before +:+ directory +:+ after) /\
  forall before extra after,
    path = before +:+ (directory +:+ extra) +:+ ":" +:+ after ->
    Helpers.is_in_path environ directory = Some true.
Proof.
  intros Hp. unfold Helpers.is_in_path. rewrite Hp. split.
  - rewrite <- contains_spec. split; [by intros [= ->] | by intros ->].
  - intros before extra after ->. f_equal. apply contains_spec.
    exists before, (extra +:+ ":" +:+ after). by rewrite !append_assoc.
Qed.

Lemma is_in_path_substring_witness :
  (Helpers.is_in_path (<["PATH" := "/usr/local/bin:/usr/bin"]> ∅) "/usr/local" = Some true <->
   exists before after, "/usr/local/bin:/usr/bin" = before +:+ "/usr/local" +:+ after) /\
  forall before extra after,
    "/usr/local/bin:/usr/bin" = before +:+ ("/usr/local" +:+ extra) +:+ ":" +:+ after ->
    Helpers.is_in_path (<["PATH" := "/usr/local/bin:/usr/bin"]> ∅) "/usr/local" = Some true.
Proof.
  apply (is_in_path_substring (<["PATH" := "/usr/local/bin:/usr/bin"]> ∅)
           "/usr/local/bin:/usr/bin" "/usr/local").
  reflexivity.
Defined.

End ProjectListLaws.

(** ** More runs on sample worlds *)

Module MoreRuns.

Import Os Eff Selector Script Sample.

Lemma archive_staged_in_downloads_witness :
  let filename := join (DOWNLOAD_DIR home) (basename "https://host/tool-linux-amd64.tar.gz") in
  filename = DOWNLOAD_DIR home +:+ "/" +:+ basename "https://host/tool-linux-amd64.tar.gz" /\
  below (DOWNLOAD_DIR home) filename = true /\
  basename filename = basename "https://host/tool-linux-amd64.tar.gz" /\
  dirname filename = DOWNLOAD_DIR home /\
  filename <> DOWNLOAD_DIR home +:+ "/".
Proof.
  apply (PathLaws.archive_staged_in_downloads home "https://host/tool-linux-amd64.tar.gz").
  reflexivity.
Defined.

Lemma catalog_written_verbatim_witness :
  let r := download_asset_list requests_200 "a/b" (cache_file home "a/b") true false ready in
  r.1 = Ok (Some true) /\
  read_text (cache_file home "a/b") r.2 = (Ok document, r.2) /\
  (forall k, k <> cache_file home "a/b" -> files r.2 !! k = files ready !! k) /\
  console r.2 =
    console ready ++ (Info, "Downloading asset list for " +:+ "a/b" +:+ "...") ::
                     [(Plain, document)].
Proof.
  apply (ScriptLaws.catalog_written_verbatim requests_200 "a/b" (cache_file home "a/b")
           true false ready (mkResponse 200 document));
    try reflexivity; vm_compute; reflexivity.
Defined.

Lemma transport_failure_skips_project_witness :
  for_each ["a/b"; "c/d"]
    (process_project home requests_down json_load wget_ok decode_ok (flags false [])) empty =
  for_each ["c/d"]
    (process_project home requests_down json_load wget_ok decode_ok (flags false []))
    (say empty [(Header, "Processing " +:+ "a/b");
                (Info, "Downloading asset list for " +:+ "a/b" +:+ "...");
                (Error, "Download failed: " +:+ "connection refused")]).
Proof.
  apply (ScriptLaws.transport_failure_skips_project home requests_down json_load wget_ok
           decode_ok (flags false []) "a/b" ["c/d"] empty
           (RequestException "connection refused")); reflexivity.
Defined.

Lemma no_match_only_warns_witness :
  download_and_extract_archive home json_no_assets wget_ok decode_ok "owner/tool"
    (cache_file home "owner/tool") false false false cached =
  (Ok tt, say cached [(Info, "Filtering archives for " +:+ "owner/tool");
                      (Warn, "No matching archives found for " +:+ "owner/tool")]).
Proof.
  apply (ScriptLaws.no_match_only_warns home json_no_assets wget_ok decode_ok "owner/tool"
           (cache_file home "owner/tool") false false false cached document false
           (mkRelease None)); reflexivity.
Defined.

Lemma dev_mode_transfers_nothing_witness :
  download_and_extract_archive home json_load wget_fails decode_fails "owner/tool"
    (cache_file home "owner/tool") false false true cached =
  (Ok tt, say cached [(Info, "Filtering archives for " +:+ "owner/tool");
                      (Info, "Downloading archive: " +:+ "https://host/tool-linux-amd64.tar.gz")]).
Proof.
  apply (ScriptLaws.dev_mode_transfers_nothing home json_load wget_fails decode_fails
           "owner/tool" (cache_file home "owner/tool") false false cached document false
           (mkRelease (Some catalog)) "https://host/tool-linux-amd64.tar.gz"); reflexivity.
Defined.


Lemma nothing_to_install_witness :
  let r := main home requests_200 json_load wget_ok decode_ok (flags false []) fresh_home in
  r.1 = Raise (SystemExit 1) /\
  exit_status r.1 = 1 /\
  console r.2 = console fresh_home ++ [(Error, "No projects to install.")] /\
  (forall d, In d [DOWNLOAD_DIR home; CACHE_DIR home; CONFIG_DIR home] ->
     is_dir (files r.2) d = true) /\
  (forall k, ~ In k [DOWNLOAD_DIR home; CACHE_DIR home; CONFIG_DIR home] ->
     files r.2 !! k = files fresh_home !! k).
Proof.
  apply (ScriptLaws.nothing_to_install home requests_200 json_load wget_ok decode_ok
           (flags false []) fresh_home).
  - reflexivity.
  - intros d [<-|[<-|[<-|[]]]]; vm_compute; reflexivity.
  - vm_compute. reflexivity.
Defined.


Lemma archive_without_extension_raises_witness :
  extract_archive home decode_ok "/home/u/Downloads/install-from-github/tool-linux-amd64" bare =
  (Raise NotADirectoryError, bare).
Proof.
  apply (ExtractLaws.archive_without_extension_raises home decode_ok
           "/home/u/Downloads/install-from-github/tool-linux-amd64" bare "ELF" false);
    reflexivity.
Defined.

Lemma unknown_suffix_leaves_empty_folder_witness :
  let filename := join (DOWNLOAD_DIR home) (basename "https://host/tool-amd64.7z") in
  let folder := (splitext filename).1 in
  let r := extract_archive home decode_ok filename odd_staged in
  r.1 = Ok tt /\
  console r.2 =
    console odd_staged ++ [extracting filename folder;
                           (Warn, "Unknown archive file type for " +:+ filename)] /\
  files r.2 !! folder = Some Dir /\
  (forall k, below folder k = true -> files r.2 !! k = None) /\
  (forall k, within folder k = false -> files r.2 !! k = files odd_staged !! k).
Proof.
  apply (ExtractLaws.unknown_suffix_leaves_empty_folder home decode_ok
           "https://host/tool-amd64.7z" odd_staged); vm_compute; reflexivity.
Defined.


Lemma decoder_failure_leaves_partial_folder_witness :
  let url := "https://host/tool-linux-amd64.tar.gz" in
  let filename := join (DOWNLOAD_DIR home) (basename url) in
  let folder := (splitext filename).1 in
  let r := extract_archive home decode_truncated filename staged in
  r.1 = Raise CalledProcessError /\
  console r.2 = console staged ++ [extracting filename folder] /\
  files r.2 !! folder = Some Dir /\
  (forall k, below folder k = true ->
     files r.2 !! k =
     write_members folder (archive_members decode_truncated filename (files staged)) ∅ !! k) /\
  (forall k, within folder k = false -> files r.2 !! k = files staged !! k).
Proof.
  apply (ExtractLaws.decoder_failure_leaves_partial_folder home decode_truncated
           "https://host/tool-linux-amd64.tar.gz" TarGz staged);
    try (vm_compute; reflexivity).
  right. exists "archive bytes", (mode_of_bool false). split; vm_compute; reflexivity.
Defined.

(** The truncated archive leaves its first member in the folder, and the
    stale file of the earlier extraction is gone. *)
Example truncated_archive_leaves_member :
  let r := extract_archive home decode_truncated archive staged in
  r.1 = Raise CalledProcessError /\
  files r.2 !! "/home/u/Downloads/install-from-github/tool-linux-amd64.tar/first" =
    Some (File "1" false) /\
  files r.2 !! "/home/u/Downloads/install-from-github/tool-linux-amd64.tar/old" = None /\
  files r.2 !! "/home/u/.local/bin/first" = None.
Proof. vm_compute. repeat split; reflexivity. Qed.


End MoreRuns.
